(** * app-functions-sdk-go: MQTT trigger, configurable pipeline builder,
      HTTP sender contract and background publisher.

    A shallow embedding of
      - the MQTT trigger ([Initialize], [onConnectHandler], [messageHandler]),
      - [appsdk/configurable.go] (the [HTTPPost], [HTTPPut], [BatchByCount]
        and [BatchByTime] builders),
      - [appsdk/backgroundpublisher.go] ([Publish], [newBackgroundPublisher]),
    together with the properties the specification states about them. *)

From Stdlib Require Import ZArith Ascii String List Lia Bool.
From Stdlib.Strings Require Byte.
From stdpp Require Import base option list strings gmap pretty.

Local Open Scope string_scope.
Local Open Scope list_scope.

(** ** Shared vocabulary *)

(** A Go value of type [error]: [None] is [nil], [Some m] an error whose
    [Error()] text is [m]. *)
Definition error := option string.

(** Go's [[]byte]. *)
Definition bytes := list Byte.byte.

(** [[]byte(s)] on the ASCII strings used below. *)
Definition bytes_of_string (s : string) : bytes :=
  map Ascii.byte_of_ascii (list_ascii_of_string s).

(** The fields of [common.ConfigurationStruct] the trigger reads. *)
Record MqttBrokerConfig := {
  Url : string;
  ClientId : string;
  ConnectTimeout : string;
  AutoReconnect : bool;
  KeepAlive : Z;
  QoS : Byte.byte;
  Retain : bool;
  SkipCertVerify : bool;
  SecretPath : string;
  AuthMode : string
}.

Record BindingInfo := {
  SubscribeTopic : string;
  PublishTopic : string
}.

Record ConfigurationStruct := {
  MqttBroker : MqttBrokerConfig;
  Binding : BindingInfo
}.

(** [types.MessageEnvelope]. *)
Record MessageEnvelope := {
  envCorrelationID : string;
  envContentType : string;
  envPayload : bytes
}.

(** [appcontext.Context]: the fields the trigger and the senders touch. *)
Record Context := {
  CorrelationID : string;
  Configuration : ConfigurationStruct;
  OutputData : bytes;
  RetryData : option bytes
}.

#[global] Instance byte_eq_decision : EqDecision Byte.byte := Byte.byte_eq_dec.

(** Levels of the logging client. *)
Inductive LogLevel := Trace | Debug | Info | Error.

(** What a run does to the outside world, in order. *)
Inductive Event :=
| EvLog (level : LogLevel) (msg : string) (args : list string)
| EvConnect
| EvSubscribe (topic : string) (qos : Byte.byte)
| EvDisconnect (quiesce : Z)
| EvPublish (topic : string) (qos : Byte.byte) (retain : bool) (payload : bytes)
| EvProcessMessage (envelope : MessageEnvelope) (after : Context) (err : error).

(** Effectful code: the events emitted so far and either a value or a
    run-time panic ([None]); after a panic nothing else runs. *)
Definition M (A : Type) : Type := list Event * option A.

Definition ret {A} (a : A) : M A := ([], Some a).
Definition panic {A} : M A := ([], None).
Definition tell (evs : list Event) : M unit := (evs, Some tt).
Definition bind {A B} (m : M A) (k : A -> M B) : M B :=
  match m with
  | (t, None) => (t, None)
  | (t, Some a) => let '(t', b) := k a in ((t ++ t')%list, b)
  end.

Declare Scope go_scope.
Delimit Scope go_scope with go.
Notation "x <- m ;; k" := (bind m (fun x => k))
  (at level 100, m at next level, right associativity) : go_scope.
Notation "m ;;; k" := (bind m (fun _ => k))
  (at level 100, right associativity) : go_scope.
Local Open Scope go_scope.

Definition events {A} (m : M A) : list Event := fst m.
Definition outcome {A} (m : M A) : option A := snd m.

(** The publications among the events, and the events that are not log
    entries. *)
Definition publications (evs : list Event) : list (string * Byte.byte * bool * bytes) :=
  omap (fun ev => match ev with
                  | EvPublish topic qos retain payload => Some (topic, qos, retain, payload)
                  | _ => None
                  end) evs.

Definition isLog (ev : Event) : bool :=
  match ev with EvLog _ _ _ => true | _ => false end.

Definition effects (evs : list Event) : list Event :=
  List.filter (fun ev => negb (isLog ev)) evs.

Definition logger (level : LogLevel) (msg : string) (args : list string) : M unit :=
  tell [EvLog level msg args].

(** ** The MQTT trigger *)
Module Mqtt.

(** [clients.ContentTypeJSON], [clients.ContentTypeCBOR],
    [clients.CorrelationHeader] and [clients.ContentType] of
    go-mod-core-contracts. *)
Definition ContentTypeJSON : string := "application/json".
Definition ContentTypeCBOR : string := "application/cbor".
Definition CorrelationHeader : string := "correlation-id".
Definition ContentType : string := "Content-Type".

(** A paho token: what [Wait()] and [Error()] answer. *)
Record Token := {
  Wait : bool;
  TokenError : error
}.

(** [token.Wait() && token.Error() != nil] *)
Definition tokenFailed (t : Token) : bool := Wait t && bool_decide (TokenError t <> None).

(** A paho client, seen through the tokens its calls hand back. *)
Record Client := {
  connectToken : Token;
  subscribeToken : string -> Byte.byte -> Token;
  publishToken : string -> Byte.byte -> bool -> bytes -> Token
}.

(** [pahoMqtt.ClientOptions], as filled in by [Initialize]. *)
Record ClientOptions := {
  optAutoReconnect : bool;
  optClientID : string;
  optConnectTimeout : option Z;
  optKeepAlive : Z;
  optServers : list string
}.

Record Trigger := {
  configuration : ConfigurationStruct;
  mqttClient : option Client
}.

(** The teardown action [Initialize] returns. *)
Inductive Deferred := DisconnectBroker.

Definition byte_lbrace : Byte.byte := Ascii.byte_of_ascii "{"%char.

(** [data[0]]: indexing an empty slice panics. *)
Definition index0 (data : bytes) : M Byte.byte :=
  match data with
  | [] => panic
  | b :: _ => ret b
  end.

(** The content-type classification at the head of [messageHandler]. *)
Definition classify (data : bytes) : M string :=
  b <- index0 data ;;
  ret (if Byte.eqb b byte_lbrace then ContentTypeJSON else ContentTypeCBOR).

Section Trigger.

(** External collaborators: [url.Parse], [time.ParseDuration], the secure
    client factory's [Create], [uuid.New().String()] and the runtime's
    [ProcessMessage] (which may fill the context's output data). *)
Variable url_Parse : string -> string + string.
Variable time_ParseDuration : string -> Z + string.
Variable mqttFactory_Create : ClientOptions -> Client + string.
Variable uuid_New : string.
Variable ProcessMessage : Context -> MessageEnvelope -> Context * error.

Definition messageHandler (trigger : Trigger) (client : Client) (payload : bytes) : M unit :=
  let brokerConfig := MqttBroker (configuration trigger) in
  let topic := PublishTopic (Binding (configuration trigger)) in
  let data := payload in
  contentType <- classify data ;;
  let correlationID := uuid_New in
  let edgexContext := {| CorrelationID := correlationID;
                         Configuration := configuration trigger;
                         OutputData := [];
                         RetryData := None |} in
  logger Trace "Received message from MQTT Trigger" [CorrelationHeader; correlationID] ;;;
  logger Debug ("Received message from MQTT Trigger with " +:+ pretty (length data) +:+ " bytes")
         [ContentType; contentType] ;;;
  let envelope := {| envCorrelationID := correlationID;
                     envContentType := contentType;
                     envPayload := data |} in
  let '(edgexContext, messageError) := ProcessMessage edgexContext envelope in
  tell [EvProcessMessage envelope edgexContext messageError] ;;;
  match messageError with
  | Some _ => ret tt
  | None =>
      if (0 <? length (OutputData edgexContext))%nat && (0 <? String.length topic)%nat then
        tell [EvPublish topic (QoS brokerConfig) (Retain brokerConfig) (OutputData edgexContext)] ;;;
        let token := publishToken client topic (QoS brokerConfig) (Retain brokerConfig)
                                  (OutputData edgexContext) in
        if tokenFailed token then
          logger Error "could not publish to topic '%s' for MQTT trigger: %s"
                 [topic; default "" (TokenError token)]
        else
          logger Trace "Sent MQTT Trigger response message" [CorrelationHeader; correlationID] ;;;
          logger Debug ("Sent MQTT Trigger response message on topic '" +:+ topic +:+ "' with "
                        +:+ pretty (length (OutputData edgexContext)) +:+ " bytes") []
      else ret tt
  end.

Definition onConnectHandler (trigger : Trigger) (client : Client) : M unit :=
  let topic := SubscribeTopic (Binding (configuration trigger)) in
  let qos := QoS (MqttBroker (configuration trigger)) in
  tell [EvSubscribe topic qos] ;;;
  let token := subscribeToken client topic qos in
  if tokenFailed token then
    tell [EvDisconnect 0] ;;;
    logger Error ("could not subscribe to topic '" +:+ topic +:+ "' for MQTT trigger: "
                  +:+ default "" (TokenError token)) []
  else
    logger Info ("Subscribed to topic '" +:+ topic +:+ "' for MQTT trigger") [].

(** [mqttClient.Connect()]: the transport dials the broker and, once the
    connection is accepted, calls the handler registered as
    [opts.OnConnect], which [Initialize] sets to [onConnectHandler]. *)
Definition Connect (trigger : Trigger) (client : Client) : M Token :=
  tell [EvConnect] ;;;
  (match TokenError (connectToken client) with
   | None => onConnectHandler trigger client
   | Some _ => ret tt
   end) ;;;
  ret (connectToken client).

(** [Initialize]'s two results and the trigger as it leaves it;
    [background] is [None] for a nil channel. *)
Definition Initialize {Chan : Type} (trigger : Trigger) (background : option Chan)
  : M (Trigger * (option Deferred * error)) :=
  let brokerConfig := MqttBroker (configuration trigger) in
  let topic := SubscribeTopic (Binding (configuration trigger)) in
  logger Info "Initializing MQTT Trigger" [] ;;;
  if bool_decide (is_Some background) then
    ret (trigger, (None, Some "background publishing not supported for services using MQTT trigger"))
  else if (String.length topic =? 0)%nat then
    ret (trigger, (None, Some "missing SubscribeTopic for MQTT Trigger. Must be present in [Binding] section."))
  else
    match url_Parse (Url brokerConfig) with
    | inr err =>
        ret (trigger, (None, Some ("invalid MQTT Broker Url '" +:+ Url brokerConfig +:+ "': " +:+ err)))
    | inl brokerUrl =>
        let opts := {| optAutoReconnect := AutoReconnect brokerConfig;
                       optClientID := ClientId brokerConfig;
                       optConnectTimeout := None;
                       optKeepAlive := KeepAlive brokerConfig;
                       optServers := [brokerUrl] |} in
        let timeout : option Z + string :=
          if (0 <? String.length (ConnectTimeout brokerConfig))%nat then
            match time_ParseDuration (ConnectTimeout brokerConfig) with
            | inr err => inr err
            | inl duration => inl (Some duration)
            end
          else inl None in
        match timeout with
        | inr err =>
            ret (trigger, (None, Some ("invalid MQTT ConnectTimeout '"
                                       +:+ ConnectTimeout brokerConfig +:+ "': " +:+ err)))
        | inl duration =>
            let opts := {| optAutoReconnect := optAutoReconnect opts;
                           optClientID := optClientID opts;
                           optConnectTimeout := duration;
                           optKeepAlive := optKeepAlive opts;
                           optServers := optServers opts |} in
            match mqttFactory_Create opts with
            | inr err =>
                ret (trigger, (None, Some ("unable to create secure MQTT Client: " +:+ err)))
            | inl client =>
                logger Info ("Connecting to mqtt broker for MQTT trigger at: " +:+ brokerUrl) [] ;;;
                token <- Connect trigger client ;;
                if tokenFailed token then
                  ret (trigger, (None, Some ("could not connect to broker for MQTT trigger: "
                                             +:+ default "" (TokenError token))))
                else
                  logger Info "Connected to mqtt server for MQTT trigger" [] ;;;
                  ret ({| configuration := configuration trigger; mqttClient := Some client |},
                       (Some DisconnectBroker, None))
            end
        end
    end.

(** Running the deferred action. *)
Definition runDeferred (d : Deferred) : M unit :=
  match d with
  | DisconnectBroker =>
      logger Info "Disconnecting from broker for MQTT trigger" [] ;;;
      tell [EvDisconnect 0]
  end.

End Trigger.

(** *** What the handler is expected to have done, for the statements below *)
Section Expected.

Variable uuid_New : string.
Variable trigger : Trigger.
Variable client : Client.

(** The content type a payload starting with [b] gets. *)
Definition contentTypeOf (b : Byte.byte) : string :=
  if decide (b = byte_lbrace) then ContentTypeJSON else ContentTypeCBOR.

(** The context and the envelope the handler hands to the runtime. *)
Definition contextOf : Context :=
  {| CorrelationID := uuid_New; Configuration := configuration trigger;
     OutputData := []; RetryData := None |}.

Definition envelopeOf (b : Byte.byte) (rest : bytes) : MessageEnvelope :=
  {| envCorrelationID := uuid_New; envContentType := contentTypeOf b;
     envPayload := b :: rest |}.

(** The token of the one publication of [data]. *)
Definition responseToken (data : bytes) : Token :=
  publishToken client (PublishTopic (Binding (configuration trigger)))
               (QoS (MqttBroker (configuration trigger)))
               (Retain (MqttBroker (configuration trigger))) data.

(** The log entry of a failed publication of [data]. *)
Definition publishFailureLog (data : bytes) : Event :=
  EvLog Error "could not publish to topic '%s' for MQTT trigger: %s"
        [PublishTopic (Binding (configuration trigger));
         default "" (TokenError (responseToken data))].

(** The events after the runtime has returned. *)
Definition response (after : Context) (err : error) : list Event :=
  let topic := PublishTopic (Binding (configuration trigger)) in
  let broker := MqttBroker (configuration trigger) in
  match err with
  | Some _ => []
  | None =>
      if bool_decide (OutputData after <> [] /\ topic <> "") then
        EvPublish topic (QoS broker) (Retain broker) (OutputData after) ::
        (if tokenFailed (responseToken (OutputData after)) then
           [publishFailureLog (OutputData after)]
         else
           [EvLog Trace "Sent MQTT Trigger response message" [CorrelationHeader; uuid_New];
            EvLog Debug ("Sent MQTT Trigger response message on topic '" +:+ topic +:+ "' with "
                         +:+ pretty (length (OutputData after)) +:+ " bytes") []])
      else []
  end.

End Expected.

End Mqtt.

(** ** The parts of Go's [strconv] and [strings] the builder calls *)
Module Strconv.

(** The double quote, for the texts of [strconv]'s errors. *)
Definition dquote : string := String (ascii_of_nat 34) EmptyString.

(** [strconv.Quote] on text that needs no escaping. *)
Definition Quote (s : string) : string := dquote +:+ s +:+ dquote.

Definition syntaxError (fn str : string) : string :=
  "strconv." +:+ fn +:+ ": parsing " +:+ Quote str +:+ ": invalid syntax".

Definition rangeError (fn str : string) : string :=
  "strconv." +:+ fn +:+ ": parsing " +:+ Quote str +:+ ": value out of range".

(** [strconv.ParseBool] *)
Definition ParseBool (str : string) : bool + string :=
  if bool_decide (str ∈ ["1"; "t"; "T"; "true"; "TRUE"; "True"]) then inl true
  else if bool_decide (str ∈ ["0"; "f"; "F"; "false"; "FALSE"; "False"]) then inl false
  else inr (syntaxError "ParseBool" str).

(** [ch -= '0'; if ch > 9 { error }] *)
Definition digit (ch : ascii) : option Z :=
  let n := Z.of_nat (nat_of_ascii ch) in
  if (48 <=? n)%Z && (n <=? 57)%Z then Some (n - 48)%Z else None.

(** The digit loop: [n = n*10 + int(ch)], failing on the first non-digit. *)
Fixpoint digits (s : string) (n : Z) : option Z :=
  match s with
  | EmptyString => Some n
  | String ch rest =>
      match digit ch with
      | Some d => digits rest (n * 10 + d)%Z
      | None => None
      end
  end.

(** [strconv.Atoi] for a 64-bit [int]: an optional sign, then one or more
    decimal digits, and the value has to fit the type. *)
Definition Atoi (s : string) : Z + string :=
  let '(neg, body) :=
    match s with
    | String "-" rest => (true, rest)
    | String "+" rest => (false, rest)
    | _ => (false, s)
    end in
  match body with
  | EmptyString => inr (syntaxError "Atoi" s)
  | _ =>
      match digits body 0 with
      | None => inr (syntaxError "Atoi" s)
      | Some n =>
          let v := if neg then (- n)%Z else n in
          if (- 2 ^ 63 <=? v)%Z && (v <=? 2 ^ 63 - 1)%Z then inl v
          else inr (rangeError "Atoi" s)
      end
  end.

(** The white space [strings.TrimSpace] removes from ASCII text. *)
Definition isSpace (ch : ascii) : bool :=
  bool_decide (nat_of_ascii ch ∈ [9; 10; 11; 12; 13; 32]%nat).

Fixpoint trimLeft (s : string) : string :=
  match s with
  | String ch rest => if isSpace ch then trimLeft rest else s
  | EmptyString => EmptyString
  end.

Fixpoint trimRight (s : string) : string :=
  match s with
  | EmptyString => EmptyString
  | String ch rest =>
      match trimRight rest with
      | EmptyString => if isSpace ch then EmptyString else String ch EmptyString
      | rest' => String ch rest'
      end
  end.

(** [strings.TrimSpace] on ASCII text. *)
Definition TrimSpace (s : string) : string := trimRight (trimLeft s).

End Strconv.

(** ** The transforms package, as far as the builder and the claims need it *)
Module Transforms.

(** Modelled from the spec: the struct [transforms.HTTPSender], whose
    declaration is not among the sources.  The fields are the arguments
    the builder passes to its two constructors. *)
Record HTTPSender := {
  URL : string;
  MimeType : string;
  PersistOnError : bool;
  SecretHeaderName : string;
  SecretHeaderName2 : string;
  SecretPath : string
}.

(** Modelled from the spec: the constructor [NewHTTPSender], not among the
    sources; a sender without secret header. *)
Definition NewHTTPSender (url mimeType : string) (persistOnError : bool) : HTTPSender :=
  {| URL := url; MimeType := mimeType; PersistOnError := persistOnError;
     SecretHeaderName := ""; SecretHeaderName2 := ""; SecretPath := "" |}.

(** Modelled from the spec: the constructor [NewHTTPSenderWithSecretHeader],
    not among the sources, with the six arguments of the builder's call.
    It returns a sender and no error. *)
Definition NewHTTPSenderWithSecretHeader (url mimeType : string) (persistOnError : bool)
    (secretHeaderName1 secretHeaderName2 secretPath : string) : HTTPSender :=
  {| URL := url; MimeType := mimeType; PersistOnError := persistOnError;
     SecretHeaderName := secretHeaderName1; SecretHeaderName2 := secretHeaderName2;
     SecretPath := secretPath |}.

(** What a pipeline function may be handed: raw bytes, a string, a value
    that marshals to the given JSON text, or a value that does not marshal
    (a channel, say). *)
Inductive Value :=
| VBytes (b : bytes)
| VString (s : string)
| VMarshalable (json : bytes)
| VUnmarshalable.

(** Modelled from the spec: the marshaling precondition of a sender
    ([util.CoerceType], not among the sources). *)
Definition CoerceType (param : Value) : bytes + string :=
  match param with
  | VBytes b => inl b
  | VString s => inl (bytes_of_string s)
  | VMarshalable json => inl json
  | VUnmarshalable =>
      inr ("marshaling input data to JSON failed, " +:+
           "passed in data must be of type []byte, string, or support marshaling to JSON")
  end.

Inductive Method := MethodPost | MethodPut.

Record Request := {
  reqMethod : Method;
  reqURL : string;
  reqContentType : string;
  reqSecretHeader : option (string * string);
  reqBody : bytes
}.

(** What comes back from the endpoint: a status code with a body, or a
    transport error. *)
Inductive Response :=
| Status (code : Z) (body : bytes)
| TransportError (e : string).

(** Modelled from the spec: when a send counts as failed.  The spec names
    an endpoint answering 404 as a failed send and one answering 200 as a
    successful one; the other codes are read as HTTP does, success being
    the 2xx class. *)
Definition sendFailure (r : Response) : error :=
  match r with
  | TransportError e => Some e
  | Status code _ =>
      if (200 <=? code)%Z && (code <? 300)%Z then None
      else Some ("export failed with " +:+ pretty code +:+ " HTTP status code")
  end.

(** Modelled from the spec: the check of the secret configuration that each
    send of a sender makes; the test [TestHTTPPostPutWithSecrets] gives
    the two error texts and shows them returned by [HTTPPost] and
    [HTTPPut]. *)
Definition determineIfUsingSecrets (sender : HTTPSender) : bool + string :=
  if (String.length (SecretHeaderName sender) =? 0)%nat
     && (String.length (SecretPath sender) =? 0)%nat then inl false
  else if (String.length (SecretHeaderName sender) =? 0)%nat then
    inr "SecretPath was specified but no header name was provided"
  else if (String.length (SecretPath sender) =? 0)%nat then
    inr "HTTP Header Secret Name was provided but no SecretPath was provided"
  else inl true.

(** Modelled from the spec: the retry contract (section 4.4); retry data is
    set only by a sender configured to persist on error. *)
Definition setRetryData (sender : HTTPSender) (ctx : Context) (payload : bytes) : Context :=
  if PersistOnError sender then
    {| CorrelationID := CorrelationID ctx; Configuration := Configuration ctx;
       OutputData := OutputData ctx; RetryData := Some payload |}
  else ctx.

(** What a send leaves behind: the requests that went out, the context,
    and the two results of the pipeline function. *)
Record SendResult := {
  sent : list Request;
  context : Context;
  continue : bool;
  result : Value + string
}.

Section Sender.

(** External collaborators: the secret store and the HTTP endpoint. *)
Variable GetSecrets : string -> list string -> gmap string string + string.
Variable endpoint : Request -> Response.

(** Modelled from the spec: the secret header of a request (section 4.4):
    a sender using secrets fetches the named secret before each send. *)
Definition secretHeader (sender : HTTPSender) (usingSecrets : bool)
    : option (string * string) + string :=
  if usingSecrets then
    match GetSecrets (SecretPath sender) [SecretHeaderName sender] with
    | inr err => inr err
    | inl theSecrets =>
        inl (Some (SecretHeaderName sender,
                   default "" (theSecrets !! SecretHeaderName sender)))
    end
  else inl None.

(** Modelled from the spec: the request of a send; an empty mime type
    stands for [application/json]. *)
Definition newRequest (sender : HTTPSender) (method : Method)
    (header : option (string * string)) (exportData : bytes) : Request :=
  {| reqMethod := method; reqURL := URL sender;
     reqContentType := if (String.length (MimeType sender) =? 0)%nat
                       then "application/json" else MimeType sender;
     reqSecretHeader := header;
     reqBody := exportData |}.

(** Modelled from the spec: one send of an HTTP sender ([HTTPPost] and
    [HTTPPut] of [pkg/transforms], not among the sources), after sections
    4.1 and 4.4 and the sender's tests. *)
Definition httpSend (sender : HTTPSender) (method : Method) (ctx : Context)
    (params : list Value) : SendResult :=
  match params with
  | [] => {| sent := []; context := ctx; continue := false;
             result := inr "No Data Received" |}
  | data :: _ =>
      match CoerceType data with
      | inr err => {| sent := []; context := ctx; continue := false; result := inr err |}
      | inl exportData =>
          match determineIfUsingSecrets sender with
          | inr err => {| sent := []; context := ctx; continue := false; result := inr err |}
          | inl usingSecrets =>
              match secretHeader sender usingSecrets with
              | inr err =>
                  {| sent := []; context := setRetryData sender ctx exportData;
                     continue := false; result := inr err |}
              | inl header =>
                  let req := newRequest sender method header exportData in
                  match sendFailure (endpoint req) with
                  | Some err =>
                      {| sent := [req]; context := setRetryData sender ctx exportData;
                         continue := false; result := inr err |}
                  | None =>
                      {| sent := [req]; context := ctx; continue := true;
                         result := inl (VBytes match endpoint req with
                                               | Status _ body => body
                                               | TransportError _ => []
                                               end) |}
                  end
              end
          end
      end
  end.

(** A send of [exportData] that fails: the secret configuration is
    consistent, and either the secret cannot be fetched or the endpoint
    does not accept the request. *)
Definition sendFails (sender : HTTPSender) (method : Method) (exportData : bytes) : Prop :=
  exists usingSecrets,
    determineIfUsingSecrets sender = inl usingSecrets
    /\ match secretHeader sender usingSecrets with
       | inr _ => True
       | inl header =>
           sendFailure (endpoint (newRequest sender method header exportData)) <> None
       end.

Definition HTTPPost (sender : HTTPSender) := httpSend sender MethodPost.
Definition HTTPPut (sender : HTTPSender) := httpSend sender MethodPut.

End Sender.

(** Modelled from the spec: the batch accumulator's configuration
    ([transforms.BatchConfig], not among the sources). *)
Inductive BatchMode := BatchByCountOnly | BatchByTimeOnly | BatchByTimeAndCount.

Record BatchConfig := {
  batchMode : BatchMode;
  batchThreshold : Z;
  timeInterval : string;
  parsedDuration : Z
}.

(** Modelled from the spec: [NewBatchByCount], not among the sources; a
    count threshold of zero or less is rejected (section 4.3).  The text of
    the error is not fixed by the spec. *)
Definition NewBatchByCount (batchThreshold : Z) : option BatchConfig * error :=
  if (batchThreshold <=? 0)%Z then (None, Some "batch threshold must be greater than zero")
  else (Some {| batchMode := BatchByCountOnly; batchThreshold := batchThreshold;
                timeInterval := ""; parsedDuration := 0 |}, None).

(** Modelled from the spec: [NewBatchByTime], not among the sources; an
    interval that does not parse as a positive duration is rejected
    (section 4.3).  [time_ParseDuration] is Go's [time.ParseDuration]. *)
Definition NewBatchByTime (time_ParseDuration : string -> Z + string) (timeInterval : string)
    : option BatchConfig * error :=
  match time_ParseDuration timeInterval with
  | inr err => (None, Some err)
  | inl d =>
      if (d <=? 0)%Z then (None, Some "time interval must be a positive duration")
      else (Some {| batchMode := BatchByTimeOnly; batchThreshold := 0;
                    timeInterval := timeInterval; parsedDuration := d |}, None)
  end.

End Transforms.

(** ** appsdk/configurable.go *)
Module Configurable.

Import Transforms.

Definition ValueDescriptors : string := "valuedescriptors".
Definition DeviceNames : string := "devicenames".
Definition FilterOut : string := "filterout".
Definition Key : string := "key".
Definition InitVector : string := "initvector".
Definition Url : string := "url".
Definition MimeType : string := "mimetype".
Definition PersistOnError : string := "persistonerror".
Definition Cert : string := "cert".
Definition SkipVerify : string := "skipverify".
Definition Qos : string := "qos".
Definition Retain : string := "retain".
Definition AutoReconnect : string := "autoreconnect".
Definition DeviceName : string := "devicename".
Definition ReadingName : string := "readingname".
Definition Rule : string := "rule".
Definition BatchThreshold : string := "batchthreshold".
Definition TimeInterval : string := "timeinterval".
Definition SecretHeaderName1 : string := "secretheadername1".
Definition SecretHeaderName2 : string := "secretheadername2".
Definition SecretPath : string := "secretpath".
Definition BrokerAddress : string := "brokeraddress".
Definition ClientID : string := "clientid".
Definition Topic : string := "topic".
Definition AuthMode : string := "authmode".
Definition Tags : string := "tags".
Definition ResponseContentType : string := "responsecontenttype".

(** An [appcontext.AppFunction] as the builders below produce it: a method
    value, that is a method together with the receiver it was taken from.
    [Batch] has a pointer receiver, so its receiver may be the nil pointer
    ([None]). *)
Inductive AppFunction :=
| HTTPPostFn (transform : HTTPSender)
| HTTPPutFn (transform : HTTPSender)
| BatchFn (transform : option BatchConfig).

(** [parameters[key]] of a Go map: the zero value when the key is absent. *)
Definition index (parameters : gmap string string) (key : string) : string :=
  default "" (parameters !! key).

(** [s != ""] *)
Definition nonEmpty (s : string) : bool := negb (String.eqb s "").

Section Builders.

(** [strings.TrimSpace] and the two batch constructors of the transforms
    package. *)
Variable strings_TrimSpace : string -> string.
Variable NewBatchByCount : Z -> option BatchConfig * error.
Variable NewBatchByTime : string -> option BatchConfig * error.

(** A builder returns [None] for Go's [nil] function. *)
Definition HTTPPost (parameters : gmap string string) : M (option AppFunction) :=
  match parameters !! Url with
  | None => logger Error ("HTTPPost Could not find " +:+ Url) [] ;;; ret None
  | Some url =>
  match parameters !! MimeType with
  | None => logger Error ("HTTPPost Could not find " +:+ MimeType) [] ;;; ret None
  | Some mimeType =>
  (* PersistOnError is optional and is false by default. *)
  let parsed : bool + string * string :=
    match parameters !! PersistOnError with
    | Some value =>
        match Strconv.ParseBool value with
        | inl b => inl b
        | inr err => inr (value, err)
        end
    | None => inl false
    end in
  match parsed with
  | inr (value, err) =>
      logger Error ("HTTPPost Could not parse '" +:+ value +:+ "' to a bool for '"
                    +:+ PersistOnError +:+ "' parameter") ["error"; err] ;;;
      ret None
  | inl persistOnError =>
  let url := strings_TrimSpace url in
  let mimeType := strings_TrimSpace mimeType in
  let secretHeaderName1 := index parameters SecretHeaderName1 in
  let secretHeaderName2 := index parameters SecretHeaderName2 in
  let secretPath := index parameters SecretPath in
  let transform :=
    if nonEmpty secretHeaderName1 && nonEmpty secretPath then
      NewHTTPSenderWithSecretHeader url mimeType persistOnError
                                    secretHeaderName1 secretHeaderName2 secretPath
    else
      NewHTTPSender url mimeType persistOnError in
  logger Debug "HTTPPost Parameters"
         [Url; Transforms.URL transform; MimeType; Transforms.MimeType transform] ;;;
  ret (Some (HTTPPostFn transform))
  end end end.

Definition HTTPPut (parameters : gmap string string) : M (option AppFunction) :=
  match parameters !! Url with
  | None => logger Error ("HTTPPut Could not find " +:+ Url) [] ;;; ret None
  | Some url =>
  match parameters !! MimeType with
  | None => logger Error ("HTTPPut Could not find " +:+ MimeType) [] ;;; ret None
  | Some mimeType =>
  (* PersistOnError is optional and is false by default. *)
  let parsed : bool + string * string :=
    match parameters !! PersistOnError with
    | Some value =>
        match Strconv.ParseBool value with
        | inl b => inl b
        | inr err => inr (value, err)
        end
    | None => inl false
    end in
  match parsed with
  | inr (value, err) =>
      logger Error ("HTTPPut Could not parse '" +:+ value +:+ "' to a bool for '"
                    +:+ PersistOnError +:+ "' parameter") ["error"; err] ;;;
      ret None
  | inl persistOnError =>
  let url := strings_TrimSpace url in
  let mimeType := strings_TrimSpace mimeType in
  let secretHeaderName1 := index parameters SecretHeaderName1 in
  let secretHeaderName2 := index parameters SecretHeaderName2 in
  let secretPath := index parameters SecretPath in
  let transform :=
    if nonEmpty secretHeaderName1 && nonEmpty secretPath then
      NewHTTPSenderWithSecretHeader url mimeType persistOnError
                                    secretHeaderName1 secretHeaderName2 secretPath
    else
      NewHTTPSender url mimeType persistOnError in
  logger Debug "HTTPPut Parameters"
         [Url; Transforms.URL transform; MimeType; Transforms.MimeType transform] ;;;
  ret (Some (HTTPPutFn transform))
  end end end.

Definition BatchByCount (parameters : gmap string string) : M (option AppFunction) :=
  match parameters !! BatchThreshold with
  | None => logger Error ("Could not find " +:+ BatchThreshold) [] ;;; ret None
  | Some batchThreshold =>
  match Strconv.Atoi batchThreshold with
  | inr err =>
      logger Error ("Could not parse '" +:+ batchThreshold +:+ "' to an int for '"
                    +:+ BatchThreshold +:+ "' parameter") ["error"; err] ;;;
      ret None
  | inl thresholdValue =>
  let '(transform, err) := NewBatchByCount thresholdValue in
  (match err with
   | Some e => logger Error e []
   | None => ret tt
   end) ;;;
  logger Debug "Batch by count Parameters" [BatchThreshold; batchThreshold] ;;;
  ret (Some (BatchFn transform))
  end end.

Definition BatchByTime (parameters : gmap string string) : M (option AppFunction) :=
  match parameters !! TimeInterval with
  | None => logger Error ("Could not find " +:+ TimeInterval) [] ;;; ret None
  | Some timeInterval =>
  let '(transform, err) := NewBatchByTime timeInterval in
  (match err with
   | Some e => logger Error e []
   | None => ret tt
   end) ;;;
  logger Debug "Batch by time Parameters" [TimeInterval; timeInterval] ;;;
  ret (Some (BatchFn transform))
  end.

End Builders.

(** The value of the optional [persistonerror] parameter, when it is absent
    or parses. *)
Definition persistOf (parameters : gmap string string) (persistOnError : bool) : Prop :=
  match parameters !! PersistOnError with
  | Some value => Strconv.ParseBool value = inl persistOnError
  | None => persistOnError = false
  end.

(** A secret path without a secret header name, or the reverse. *)
Definition mismatched (secretHeaderName secretPath : string) : Prop :=
  (secretHeaderName = "" /\ secretPath <> "") \/ (secretHeaderName <> "" /\ secretPath = "").

(** The parameters of a stage with a secret path and no header name. *)
Definition secretPathOnly : gmap string string :=
  {[ "url" := "http://127.0.0.1:8080/somepath/foo"; "mimetype" := "application/json";
     "secretpath" := "/path" ]}.

End Configurable.

(** ** appsdk/backgroundpublisher.go *)
Module BackgroundPublisher.

(** A Go channel of envelopes made by [make(chan T, capacity)]: its
    capacity and the envelopes it buffers, oldest first. *)
Record Channel := {
  capacity : nat;
  buffer : list MessageEnvelope
}.

(** [newBackgroundPublisher]: both results are ends of the one channel;
    [make] panics on a negative capacity. *)
Definition newBackgroundPublisher (capacity : Z) : option Channel :=
  if (capacity <? 0)%Z then None
  else Some {| capacity := Z.to_nat capacity; buffer := [] |}.

(** The arguments of one call of [Publish]. *)
Record PublishCall := {
  payload : bytes;
  correlationID : string;
  contentType : string
}.

(** The envelope [Publish] builds. *)
Definition outputEnvelope (call : PublishCall) : MessageEnvelope :=
  {| envCorrelationID := correlationID call;
     envContentType := contentType call;
     envPayload := payload call |}.

(** The publisher, its producers and its consumer: the channel, the calls
    of [Publish] every producer has still to complete (in the order the
    producer makes them), and the envelopes the consumer has received. *)
Record System := {
  output : Channel;
  producers : list (list PublishCall);
  observed : list MessageEnvelope
}.

(** The system around a channel that [newBackgroundPublisher] has just
    made: nothing observed yet. *)
Definition start (channel : Channel) (producers : list (list PublishCall)) : System :=
  {| output := channel;
     producers := producers;
     observed := [] |}.

(** What the scheduler can let happen next:
    - [Send i]: the send [pub.output <- outputEnvelope] of producer [i]'s
      current [Publish] goes into the buffer;
    - [Handoff i]: that send is taken by the waiting consumer directly;
    - [Receive]: the consumer takes the oldest buffered envelope. *)
Inductive Action := Send (i : nat) | Handoff (i : nat) | Receive.

(** One step; [None] when the action is blocked: a send while the buffer
    is full, a hand-over while envelopes are buffered, a receive from an
    empty buffer. *)
Definition exec (a : Action) (s : System) : option System :=
  let ch := output s in
  match a with
  | Send i =>
      match producers s !! i with
      | Some (call :: rest) =>
          if (length (buffer ch) <? capacity ch)%nat then
            Some {| output := {| capacity := capacity ch;
                                 buffer := buffer ch ++ [outputEnvelope call] |};
                    producers := <[i := rest]> (producers s);
                    observed := observed s |}
          else None
      | _ => None
      end
  | Handoff i =>
      match producers s !! i, buffer ch with
      | Some (call :: rest), [] =>
          Some {| output := ch;
                  producers := <[i := rest]> (producers s);
                  observed := observed s ++ [outputEnvelope call] |}
      | _, _ => None
      end
  | Receive =>
      match buffer ch with
      | envelope :: rest =>
          Some {| output := {| capacity := capacity ch; buffer := rest |};
                  producers := producers s;
                  observed := observed s ++ [envelope] |}
      | [] => None
      end
  end.

(** A schedule, run from a state. *)
Fixpoint run (schedule : list Action) (s : System) : option System :=
  match schedule with
  | [] => Some s
  | a :: schedule' =>
      match exec a s with
      | Some s' => run schedule' s'
      | None => None
      end
  end.

(** Calls of [Publish] not yet completed. *)
Definition pending (s : System) : nat := length (concat (producers s)).

(** Twice the pending calls plus the buffered envelopes: every step makes
    it smaller. *)
Definition measure (s : System) : nat := 2 * pending s + length (buffer (output s)).

(** Every [Publish] has returned and the consumer has drained the buffer. *)
Definition completed (s : System) : Prop :=
  Forall (fun calls => calls = []) (producers s) /\ buffer (output s) = [].

(** Nothing can happen any more. *)
Definition quiescent (s : System) : Prop := forall a, exec a s = None.

(** [l] merges the sequences [ls], keeping the order within each. *)
Inductive Interleaving {A : Type} : list (list A) -> list A -> Prop :=
| Interleaving_done ls :
    Forall (fun l => l = []) ls -> Interleaving ls []
| Interleaving_next ls i x xs l :
    ls !! i = Some (x :: xs) ->
    Interleaving (<[i := xs]> ls) l ->
    Interleaving ls (x :: l).

End BackgroundPublisher.

(** ** Concrete collaborators, for the examples *)
Module Fixtures.

Import Mqtt.

Definition brokerConfig : MqttBrokerConfig :=
  {| Url := "tcp://localhost:1883"; ClientId := "app"; ConnectTimeout := "";
     AutoReconnect := true; KeepAlive := 30; QoS := Byte.x00; Retain := false;
     SkipCertVerify := false; SecretPath := ""; AuthMode := "none" |}.

Definition config : ConfigurationStruct :=
  {| MqttBroker := brokerConfig;
     Binding := {| SubscribeTopic := "events"; PublishTopic := "responses" |} |}.

Definition trigger : Trigger := {| configuration := config; mqttClient := None |}.

Definition succeeded : Token := {| Wait := true; TokenError := None |}.
Definition failed (e : string) : Token := {| Wait := true; TokenError := Some e |}.

Definition goodClient : Client :=
  {| connectToken := succeeded;
     subscribeToken := fun _ _ => succeeded;
     publishToken := fun _ _ _ _ => succeeded |}.

Definition unreachableClient : Client :=
  {| connectToken := failed "network Error : dial tcp: connection refused";
     subscribeToken := fun _ _ => succeeded;
     publishToken := fun _ _ _ _ => succeeded |}.

Definition cannotSubscribeClient : Client :=
  {| connectToken := succeeded;
     subscribeToken := fun _ _ => failed "not authorized";
     publishToken := fun _ _ _ _ => succeeded |}.

Definition cannotPublishClient : Client :=
  {| connectToken := succeeded;
     subscribeToken := fun _ _ => succeeded;
     publishToken := fun _ _ _ _ => failed "not Connected" |}.

Definition url_Parse (s : string) : string + string := inl s.
(** [time.ParseDuration] on the texts used in the examples: [0], whole
    seconds such as [10s], and text that is no duration at all. *)
Definition time_ParseDuration (s : string) : Z + string :=
  if String.eqb s "0" then inl 0%Z
  else
    match Strconv.digits s 0, String.length s with
    | Some _, S _ => inr ("time: missing unit in duration " +:+ Strconv.Quote s)
    | _, _ =>
        let n := String.length s in
        match Strconv.digits (substring 0 (n - 1) s) 0, substring (n - 1) 1 s with
        | Some seconds, "s" =>
            if (n =? 1)%nat then inr ("time: invalid duration " +:+ Strconv.Quote s)
            else inl (seconds * 1000000000)%Z
        | _, _ => inr ("time: invalid duration " +:+ Strconv.Quote s)
        end
    end.
Definition uuid_New : string := "7f1c0d3a-0000-4000-8000-000000000001".

(** A pipeline whose last function sets the payload as output data. *)
Definition echoRuntime (ctx : Context) (envelope : MessageEnvelope) : Context * error :=
  ({| CorrelationID := CorrelationID ctx; Configuration := Configuration ctx;
      OutputData := envPayload envelope; RetryData := RetryData ctx |}, None).

(** The payloads of the classification round trip: the JSON text
    [{?a?:1}] (with double quotes for [?]) and the two bytes 01 02. *)
Definition jsonPayload : bytes :=
  [Byte.x7b; Byte.x22; Byte.x61; Byte.x22; Byte.x3a; Byte.x31; Byte.x7d].
Definition binaryPayload : bytes := [Byte.x01; Byte.x02].

(** The secret store and the endpoint of the sender's tests. *)
Definition GetSecrets (path : string) (keys : list string) : gmap string string + string :=
  let fakeDb : gmap string string := {[ "Secret-Header-Name" := "value" ]} in
  match fakeDb !! default "" (head keys) with
  | Some _ => inl fakeDb
  | None => inr "FAKE NOT FOUND ERROR"
  end.

Definition path : string := "/somepath/foo".
Definition badPath : string := "/somepath/bad".
Definition host : string := "http://127.0.0.1:8080".
Definition msgStr : string := "test message".

Definition endpoint (r : Transforms.Request) : Transforms.Response :=
  if String.eqb (Transforms.reqURL r) (host +:+ badPath)
  then Transforms.Status 404 []
  else Transforms.Status 200 [].

Definition context : Context :=
  {| CorrelationID := "123"; Configuration := config; OutputData := []; RetryData := None |}.

(** Two producers publishing three envelopes through a buffer of one, a
    schedule that delivers them all, the state it ends in, and a schedule
    that is no run because its second send finds the buffer full. *)
Definition a1 : BackgroundPublisher.PublishCall :=
  {| BackgroundPublisher.payload := [Byte.x01]; BackgroundPublisher.correlationID := "a1";
     BackgroundPublisher.contentType := "application/cbor" |}.
Definition a2 : BackgroundPublisher.PublishCall :=
  {| BackgroundPublisher.payload := [Byte.x02]; BackgroundPublisher.correlationID := "a2";
     BackgroundPublisher.contentType := "application/cbor" |}.
Definition b1 : BackgroundPublisher.PublishCall :=
  {| BackgroundPublisher.payload := [Byte.x7b; Byte.x7d]; BackgroundPublisher.correlationID := "b1";
     BackgroundPublisher.contentType := "application/json" |}.
Definition calls : list (list BackgroundPublisher.PublishCall) := [[a1; a2]; [b1]].

(** The channel of [newBackgroundPublisher(1)]. *)
Definition channel : BackgroundPublisher.Channel :=
  {| BackgroundPublisher.capacity := 1; BackgroundPublisher.buffer := [] |}.

Definition schedule : list BackgroundPublisher.Action :=
  [BackgroundPublisher.Send 0; BackgroundPublisher.Receive; BackgroundPublisher.Send 1;
   BackgroundPublisher.Receive; BackgroundPublisher.Handoff 0].

Definition blockedSchedule : list BackgroundPublisher.Action :=
  [BackgroundPublisher.Send 0; BackgroundPublisher.Send 1; BackgroundPublisher.Receive].

Definition drained : BackgroundPublisher.System :=
  {| BackgroundPublisher.output :=
       {| BackgroundPublisher.capacity := 1; BackgroundPublisher.buffer := [] |};
     BackgroundPublisher.producers := [[]; []];
     BackgroundPublisher.observed :=
       map BackgroundPublisher.outputEnvelope [a1; b1; a2] |}.

End Fixtures.

(** ** More of Go's [strconv] *)
Module StrconvFull.

Import Strconv.

(** The largest [uint64], and [ParseUint]'s cutoff for base ten: the
    smallest number whose tenfold overflows. *)
Definition maxUint64 : Z := 2 ^ 64 - 1.
Definition cutoff : Z := maxUint64 / 10 + 1.

(** The digit loop of [strconv.ParseUint(s, 10, 64)] from the value [n]
    read so far: the number, or the value returned with a syntax error
    ([inr false]) or with a range error ([inr true]). *)
Fixpoint ParseUintFrom (s : string) (n : Z) : Z + bool :=
  match s with
  | EmptyString => inl n
  | String ch rest =>
      match digit ch with
      | None => inr false
      | Some d =>
          if (cutoff <=? n)%Z then inr true
          else
            let n1 := (n * 10 + d)%Z in
            if (maxUint64 <? n1)%Z then inr true
            else ParseUintFrom rest n1
      end
  end.

(** [strconv.Atoi] with both its results: the [int] that comes with an
    error is [0] for a syntax error and the nearest bound for a range
    error. *)
Definition Atoi (s : string) : Z * error :=
  let '(neg, body) :=
    match s with
    | String "-" rest => (true, rest)
    | String "+" rest => (false, rest)
    | _ => (false, s)
    end in
  match body with
  | EmptyString => (0%Z, Some (syntaxError "Atoi" s))
  | _ =>
      match ParseUintFrom body 0 with
      | inr false => (0%Z, Some (syntaxError "Atoi" s))
      | inr true =>
          (if neg then (- 2 ^ 63)%Z else (2 ^ 63 - 1)%Z, Some (rangeError "Atoi" s))
      | inl un =>
          if negb neg && (2 ^ 63 <=? un)%Z then ((2 ^ 63 - 1)%Z, Some (rangeError "Atoi" s))
          else if neg && (2 ^ 63 <? un)%Z then ((- 2 ^ 63)%Z, Some (rangeError "Atoi" s))
          else (if neg then (- un)%Z else un, None)
      end
  end.

(** Go's conversion [byte(n)] of an [int]: the low eight bits. *)
Definition byte_of_int (n : Z) : Z := Z.land n 255.

End StrconvFull.

(** ** The transforms the other builders of appsdk/configurable.go set up *)
Module Stages.

(** The struct literals of configurable.go. *)
Record Filter := {
  FilterValues : list string;
  FilterOut : bool
}.

Record CoreData := {
  DeviceName : string;
  ReadingName : string
}.

Record Encryption := {
  Key : string;
  InitializationVector : string
}.

Record OutputData := {
  ResponseContentType : string
}.

Record KeyCertPair := {
  CertFile : string;
  KeyFile : string
}.

(** [transforms.MqttConfig], with the fields the builder assigns; [Qos] is
    a [byte]. *)
Module MqttConfig.
Record t := {
  Qos : Z;
  Retain : bool;
  AutoReconnect : bool;
  SkipCertVerify : bool
}.
End MqttConfig.

(** [transforms.MQTTSecretConfig]; [QoS] is a [byte]. *)
Module MQTTSecretConfig.
Record t := {
  Retain : bool;
  SkipCertVerify : bool;
  AutoReconnect : bool;
  QoS : Z;
  BrokerAddress : string;
  ClientId : string;
  SecretPath : string;
  Topic : string;
  AuthMode : string
}.
End MQTTSecretConfig.

(** The function a builder returns: a method value of the transform it has
    set up.  For a transform made by a constructor of the transforms
    package ([NewMQTTSender], [NewMQTTSecretSender], [NewJSONLogic],
    [NewTags]) the receiver is given by the constructor's arguments. *)
Inductive Function (Addressable : Type) :=
| FilterByDeviceNameFn (transform : Filter)
| FilterByValueDescriptorFn (transform : Filter)
| TransformToXMLFn
| TransformToJSONFn
| MarkAsPushedFn
| PushToCoreDataFn (transform : CoreData)
| CompressWithGZIPFn
| CompressWithZLIBFn
| EncryptWithAESFn (transforms : Encryption)
| MQTTSendFn (addr : Addressable) (pair : option KeyCertPair) (mqttConfig : MqttConfig.t)
             (persistOnError : bool)
| SetOutputDataFn (transform : OutputData)
| EvaluateFn (rule : string)
| MQTTSecretSendFn (mqttConfig : MQTTSecretConfig.t) (persistOnError : bool)
| AddTagsFn (tags : gmap string string).

Arguments FilterByDeviceNameFn {Addressable}.
Arguments FilterByValueDescriptorFn {Addressable}.
Arguments TransformToXMLFn {Addressable}.
Arguments TransformToJSONFn {Addressable}.
Arguments MarkAsPushedFn {Addressable}.
Arguments PushToCoreDataFn {Addressable}.
Arguments CompressWithGZIPFn {Addressable}.
Arguments CompressWithZLIBFn {Addressable}.
Arguments EncryptWithAESFn {Addressable}.
Arguments MQTTSendFn {Addressable}.
Arguments SetOutputDataFn {Addressable}.
Arguments EvaluateFn {Addressable}.
Arguments MQTTSecretSendFn {Addressable}.
Arguments AddTagsFn {Addressable}.

End Stages.

(** ** appsdk/configurable.go: the other builders *)
Module Builders.

Import Transforms Configurable.

(** The recurring step [value, ok := parameters[key]; if ok { x, err =
    parse(value) }]: the default when the key is absent, else the parsed
    value, else the text and the error to report. *)
Definition optional {A : Type} (parse : string -> A + string) (absent : A)
    (value : option string) : A + string * string :=
  match value with
  | None => inl absent
  | Some text =>
      match parse text with
      | inl a => inl a
      | inr err => inr (text, err)
      end
  end.

(** The optional parameter [key] is present and [parse] refuses it. *)
Definition refused {A : Type} (parse : string -> A + string)
    (parameters : gmap string string) (key : string) : Prop :=
  exists value err, parameters !! key = Some value /\ parse value = inr err.

(** [fmt.Sprintf("Could not parse '%s' to a bool for '%s' parameter", value,
    key)] *)
Definition couldNotParseBool (value key : string) : string :=
  "Could not parse '" +:+ value +:+ "' to a bool for '" +:+ key +:+ "' parameter".

Section Builders.

(** [strings.TrimSpace]; [strings.FieldsFunc] with [util.SplitComma] and
    with [util.SplitColon]; [util.DeleteEmptyAndTrim]; the batch
    constructor of the transforms package; the type [models.Addressable]
    with the way the logger prints it; [fmt.Sprintf("%v", tags)]. *)
Variable strings_TrimSpace : string -> string.
Variable fieldsComma : string -> list string.
Variable fieldsColon : string -> list string.
Variable util_DeleteEmptyAndTrim : list string -> list string.
Variable NewBatchByTimeAndCount : string -> Z -> option BatchConfig * error.
Variable Addressable : Type.
Variable printAddressable : Addressable -> string.
Variable printTags : gmap string string -> string.

Local Abbreviation Function := (Stages.Function Addressable).

(** The two filter builders differ in the parameter they read, in the
    method they return and in the words of their debug line. *)
Definition FilterByDeviceName (parameters : gmap string string) : M (option Function) :=
  match parameters !! DeviceNames with
  | None => logger Error ("Could not find " +:+ DeviceNames) [] ;;; ret None
  | Some deviceNames =>
  match optional Strconv.ParseBool false (parameters !! FilterOut) with
  | inr (filterOut, _) =>
      logger Error ("Could not convert filterOut value to bool " +:+ filterOut) [] ;;;
      ret None
  | inl filterOutBool =>
  let deviceNamesCleaned := util_DeleteEmptyAndTrim (fieldsComma deviceNames) in
  let transform := {| Stages.FilterValues := deviceNamesCleaned;
                      Stages.FilterOut := filterOutBool |} in
  logger Debug "Device Name Filters" [DeviceNames; String.concat "," deviceNamesCleaned] ;;;
  ret (Some (Stages.FilterByDeviceNameFn transform))
  end end.

Definition FilterByValueDescriptor (parameters : gmap string string) : M (option Function) :=
  match parameters !! ValueDescriptors with
  | None => logger Error ("Could not find " +:+ ValueDescriptors) [] ;;; ret None
  | Some valueDescriptors =>
  match optional Strconv.ParseBool false (parameters !! FilterOut) with
  | inr (filterOut, _) =>
      logger Error ("Could not convert filterOut value to bool " +:+ filterOut) [] ;;;
      ret None
  | inl filterOutBool =>
  let valueDescriptorsCleaned := util_DeleteEmptyAndTrim (fieldsComma valueDescriptors) in
  let transform := {| Stages.FilterValues := valueDescriptorsCleaned;
                      Stages.FilterOut := filterOutBool |} in
  logger Debug "Value Descriptors Filter"
         [ValueDescriptors; String.concat "," valueDescriptorsCleaned] ;;;
  ret (Some (Stages.FilterByValueDescriptorFn transform))
  end end.

(** The builders without parameters. *)
Definition TransformToXML : Function := Stages.TransformToXMLFn.
Definition TransformToJSON : Function := Stages.TransformToJSONFn.
Definition MarkAsPushed : Function := Stages.MarkAsPushedFn.
Definition CompressWithGZIP : Function := Stages.CompressWithGZIPFn.
Definition CompressWithZLIB : Function := Stages.CompressWithZLIBFn.

(** When [readingname] is absent, the error line is built from the
    variable [readingName], which is then the empty string, not from the
    name of the parameter. *)
Definition PushToCore (parameters : gmap string string) : M (option Function) :=
  match parameters !! DeviceName with
  | None => logger Error ("Could not find " +:+ DeviceName) [] ;;; ret None
  | Some deviceName =>
  match parameters !! ReadingName with
  | None =>
      let readingName := "" in
      logger Error ("Could not find " +:+ readingName) [] ;;; ret None
  | Some readingName =>
  let deviceName := strings_TrimSpace deviceName in
  let readingName := strings_TrimSpace readingName in
  logger Debug "PushToCore Parameters" [DeviceName; deviceName; ReadingName; readingName] ;;;
  ret (Some (Stages.PushToCoreDataFn {| Stages.DeviceName := deviceName;
                                        Stages.ReadingName := readingName |}))
  end end.

Definition EncryptWithAES (parameters : gmap string string) : M (option Function) :=
  match parameters !! Key with
  | None => logger Error ("Could not find " +:+ Key) [] ;;; ret None
  | Some key =>
  match parameters !! InitVector with
  | None => logger Error ("Could not find " +:+ InitVector) [] ;;; ret None
  | Some initVector =>
  ret (Some (Stages.EncryptWithAESFn {| Stages.Key := key;
                                        Stages.InitializationVector := initVector |}))
  end end.





Definition MQTTSend (parameters : gmap string string) (addr : Addressable)
    : M (option Function) :=
  (* optional string params *)
  let cert := index parameters Cert in
  let key := index parameters Key in
  let skipVerify := index parameters SkipVerify in
  match optional Strconv.Atoi 0%Z (parameters !! Qos) with
  | inr _ => logger Error ("Unable to parse " +:+ Qos +:+ " value") [] ;;; ret None
  | inl qos =>
  match optional Strconv.ParseBool false (parameters !! Retain) with
  | inr _ => logger Error ("Unable to parse " +:+ Retain +:+ " value") [] ;;; ret None
  | inl retain =>
  match optional Strconv.ParseBool false (parameters !! AutoReconnect) with
  | inr _ => logger Error ("Unable to parse " +:+ AutoReconnect +:+ " value") [] ;;; ret None
  | inl autoReconnect =>
  logger Debug "MQTT Send Parameters"
         ["Address"; printAddressable addr;
          Qos; index parameters Qos; Retain; index parameters Retain;
          AutoReconnect; index parameters AutoReconnect; Cert; cert; Key; key] ;;;
  let pair :=
    if (0 <? String.length cert)%nat && (0 <? String.length key)%nat
    then Some {| Stages.CertFile := cert; Stages.KeyFile := key |}
    else None in
  (* PersistOnError is optional and is false by default. *)
  match optional Strconv.ParseBool false (parameters !! PersistOnError) with
  | inr (value, err) =>
      logger Error (couldNotParseBool value PersistOnError) ["error"; err] ;;; ret None
  | inl persistOnError =>
  match (if nonEmpty skipVerify
         then optional Strconv.ParseBool false (Some skipVerify)
         else inl false) with
  | inr (_, err) =>
      logger Error (couldNotParseBool skipVerify SkipVerify) ["error"; err] ;;; ret None
  | inl skipCertVerify =>
  let mqttConfig := {| Stages.MqttConfig.Qos := StrconvFull.byte_of_int qos;
                       Stages.MqttConfig.Retain := retain;
                       Stages.MqttConfig.AutoReconnect := autoReconnect;
                       Stages.MqttConfig.SkipCertVerify := skipCertVerify |} in
  ret (Some (Stages.MQTTSendFn addr pair mqttConfig persistOnError))
  end end end end end.

(** The content type is taken over only when it is present and not empty. *)
Definition SetOutputData (parameters : gmap string string) : Function :=
  Stages.SetOutputDataFn
    {| Stages.ResponseContentType :=
         match parameters !! ResponseContentType with
         | Some value => if (0 <? String.length value)%nat then value else ""
         | None => ""
         end |}.

(** After a threshold that [Atoi] refuses, the error is logged and the
    builder goes on with the [int] that came with the error. *)
Definition BatchByTimeAndCount (parameters : gmap string string) : M (option AppFunction) :=
  match parameters !! TimeInterval with
  | None => logger Error ("Could not find " +:+ TimeInterval) [] ;;; ret None
  | Some timeInterval =>
  match parameters !! BatchThreshold with
  | None => logger Error ("Could not find " +:+ BatchThreshold) [] ;;; ret None
  | Some batchThreshold =>
  let '(thresholdValue, err) := StrconvFull.Atoi batchThreshold in
  (match err with
   | Some e =>
       logger Error ("Could not parse '" +:+ batchThreshold +:+ "' to an int for '"
                     +:+ BatchThreshold +:+ "' parameter") ["error"; e]
   | None => ret tt
   end) ;;;
  let '(transform, err) := NewBatchByTimeAndCount timeInterval thresholdValue in
  (match err with
   | Some e => logger Error e []
   | None => ret tt
   end) ;;;
  logger Debug "Batch by time and count Parameters"
         [BatchThreshold; batchThreshold; TimeInterval; timeInterval] ;;;
  ret (Some (BatchFn transform))
  end end.

Definition JSONLogic (parameters : gmap string string) : M (option Function) :=
  match parameters !! Rule with
  | None => logger Error ("Could not find " +:+ Rule) [] ;;; ret None
  | Some rule => ret (Some (Stages.EvaluateFn rule))
  end.

Definition MQTTSecretSend (parameters : gmap string string) : M (option Function) :=
  match parameters !! BrokerAddress with
  | None => logger Error ("Could not find " +:+ BrokerAddress) [] ;;; ret None
  | Some brokerAddress =>
  match parameters !! Topic with
  | None => logger Error ("Could not find " +:+ Topic) [] ;;; ret None
  | Some topic =>
  match parameters !! SecretPath with
  | None => logger Error ("Could not find " +:+ SecretPath) [] ;;; ret None
  | Some secretPath =>
  match parameters !! AuthMode with
  | None => logger Error ("Could not find " +:+ AuthMode) [] ;;; ret None
  | Some authMode =>
  match parameters !! ClientID with
  | None => logger Error ("Could not find " +:+ ClientID) [] ;;; ret None
  | Some clientID =>
  match optional Strconv.Atoi 0%Z (parameters !! Qos) with
  | inr _ => logger Error ("Unable to parse " +:+ Qos +:+ " value") [] ;;; ret None
  | inl qos =>
  match optional Strconv.ParseBool false (parameters !! Retain) with
  | inr _ => logger Error ("Unable to parse " +:+ Retain +:+ " value") [] ;;; ret None
  | inl retain =>
  match optional Strconv.ParseBool false (parameters !! AutoReconnect) with
  | inr _ => logger Error ("Unable to parse " +:+ AutoReconnect +:+ " value") [] ;;; ret None
  | inl autoReconnect =>
  match optional Strconv.ParseBool false (parameters !! SkipVerify) with
  | inr (skipVerifyVal, err) =>
      logger Error (couldNotParseBool skipVerifyVal SkipVerify) ["error"; err] ;;; ret None
  | inl skipCertVerify =>
  let mqttConfig := {| Stages.MQTTSecretConfig.Retain := retain;
                       Stages.MQTTSecretConfig.SkipCertVerify := skipCertVerify;
                       Stages.MQTTSecretConfig.AutoReconnect := autoReconnect;
                       Stages.MQTTSecretConfig.QoS := StrconvFull.byte_of_int qos;
                       Stages.MQTTSecretConfig.BrokerAddress := brokerAddress;
                       Stages.MQTTSecretConfig.ClientId := clientID;
                       Stages.MQTTSecretConfig.SecretPath := secretPath;
                       Stages.MQTTSecretConfig.Topic := topic;
                       Stages.MQTTSecretConfig.AuthMode := authMode |} in
  (* PersistOnError is optional and is false by default. *)
  match optional Strconv.ParseBool false (parameters !! PersistOnError) with
  | inr (value, err) =>
      logger Error (couldNotParseBool value PersistOnError) ["error"; err] ;;; ret None
  | inl persistOnError =>
  ret (Some (Stages.MQTTSecretSendFn mqttConfig persistOnError))
  end end end end end end end end end end.

(** The loop of [AddTags] over the tags still to read, with the map built
    so far; [None] for the [return nil] inside the loop. *)
Fixpoint addTagsLoop (tagsSpec : string) (tagKeyValues : list string)
    (tags : gmap string string) : M (option (gmap string string)) :=
  match tagKeyValues with
  | [] => ret (Some tags)
  | tag :: rest =>
      let keyValue := util_DeleteEmptyAndTrim (fieldsColon tag) in
      match keyValue with
      | [key; value] =>
          if (String.length key =? 0)%nat then
            logger Error ("Tag key missing. Got '" +:+ tag +:+ "'") [] ;;; ret None
          else if (String.length value =? 0)%nat then
            logger Error ("Tag value missing. Got '" +:+ tag +:+ "'") [] ;;; ret None
          else addTagsLoop tagsSpec rest (<[key := value]> tags)
      | _ =>
          logger Error ("Bad Tags specification format. Expect comma separated list of "
                        +:+ "'key:value'. Got `" +:+ tagsSpec +:+ "`") [] ;;;
          ret None
      end
  end.

Definition AddTags (parameters : gmap string string) : M (option Function) :=
  match parameters !! Tags with
  | None => logger Error ("Could not find '" +:+ Tags +:+ "' parameter") [] ;;; ret None
  | Some tagsSpec =>
      let tagKeyValues := util_DeleteEmptyAndTrim (fieldsComma tagsSpec) in
      result <- addTagsLoop tagsSpec tagKeyValues ∅ ;;
      match result with
      | None => ret None
      | Some tags =>
          logger Debug "Add Tags" [Tags; printTags tags] ;;;
          ret (Some (Stages.AddTagsFn tags))
      end
  end.

End Builders.

End Builders.

(** ** What the builders are expected to have set up, for the statements *)
Module BuildersExpected.

Import Configurable Builders.

(** What [MQTTSend] makes of skipverify: nothing when it is empty or
    absent. *)
Definition skipVerifyOf (parameters : gmap string string) : bool + string * string :=
  if nonEmpty (index parameters SkipVerify)
  then optional Strconv.ParseBool false (Some (index parameters SkipVerify))
  else inl false.

(** The key pair [MQTTSend] passes on. *)
Definition pairOf (parameters : gmap string string) : option Stages.KeyCertPair :=
  if (0 <? String.length (index parameters Cert))%nat
     && (0 <? String.length (index parameters Key))%nat
  then Some {| Stages.CertFile := index parameters Cert;
               Stages.KeyFile := index parameters Key |}
  else None.

(** The key and the value of a tag, when it splits into exactly these two
    and neither is empty. *)
Definition keyValueOf (fieldsColon : string -> list string)
    (util_DeleteEmptyAndTrim : list string -> list string) (tag : string)
    : option (string * string) :=
  match util_DeleteEmptyAndTrim (fieldsColon tag) with
  | [key; value] =>
      if (String.length key =? 0)%nat || (String.length value =? 0)%nat
      then None else Some (key, value)
  | _ => None
  end.

(** The error lines a builder has logged, and whether it has returned
    nil. *)
Definition isErrorLine (ev : Event) : bool :=
  match ev with EvLog Error _ _ => true | _ => false end.

Definition errorLines {A : Type} (m : M A) : nat :=
  length (List.filter isErrorLine (events m)).

Definition returnsNil {A : Type} (m : M (option A)) : bool :=
  match outcome m with Some None => true | _ => false end.

(** One error line when the builder returns nil, none when it returns a
    function. *)
Definition complainsIffNil {A : Type} (m : M (option A)) : Prop :=
  errorLines m = if returnsNil m then 1 else 0.

End BuildersExpected.

(** ** The MQTT trigger: construction, and what the statements below observe *)
Module MqttMore.

Import Mqtt.

(** [NewTrigger]: a trigger that has no client yet. *)
Definition NewTrigger (configuration : ConfigurationStruct) : Trigger :=
  {| Mqtt.configuration := configuration; mqttClient := None |}.

(** The options [Initialize] has filled in when it calls the factory, for
    the broker URL as parsed and the connect timeout, if one is set. *)
Definition optionsOf (trigger : Trigger) (brokerUrl : string) (timeout : option Z)
    : ClientOptions :=
  let brokerConfig := MqttBroker (configuration trigger) in
  {| optAutoReconnect := AutoReconnect brokerConfig;
     optClientID := ClientId brokerConfig;
     optConnectTimeout := timeout;
     optKeepAlive := KeepAlive brokerConfig;
     optServers := [brokerUrl] |}.

(** The connect timeout [Initialize] arrives at: none when the setting is
    empty, else what [time.ParseDuration] makes of it. *)
Definition connectTimeoutOf (time_ParseDuration : string -> Z + string) (trigger : Trigger)
    : option Z + string :=
  let text := ConnectTimeout (MqttBroker (configuration trigger)) in
  if (0 <? String.length text)%nat then
    match time_ParseDuration text with
    | inr err => inr err
    | inl duration => inl (Some duration)
    end
  else inl None.

(** The last stretch of [Initialize], from the client the factory has made
    to the end: its opening line, the dialling, and the two ways out. *)
Definition dial (trigger : Trigger) (brokerUrl : string) (client : Client)
    : M (Trigger * (option Deferred * error)) :=
  logger Info "Initializing MQTT Trigger" [] ;;;
  logger Info ("Connecting to mqtt broker for MQTT trigger at: " +:+ brokerUrl) [] ;;;
  token <- Connect trigger client ;;
  if tokenFailed token then
    ret (trigger,
         (None, Some ("could not connect to broker for MQTT trigger: "
                      +:+ default "" (TokenError token))))
  else
    logger Info "Connected to mqtt server for MQTT trigger" [] ;;;
    ret ({| configuration := configuration trigger; mqttClient := Some client |},
         (Some DisconnectBroker, None)).

Definition isConnect (ev : Event) : bool :=
  match ev with EvConnect => true | _ => false end.

Definition isProcessMessage (ev : Event) : bool :=
  match ev with EvProcessMessage _ _ _ => true | _ => false end.

(** How often the broker was dialled. *)
Definition connections (evs : list Event) : nat := length (List.filter isConnect evs).

(** The events apart from the record of the runtime's call. *)
Definition besidesRuntime (evs : list Event) : list Event :=
  List.filter (fun ev => negb (isProcessMessage ev)) evs.

End MqttMore.

(** ** More concrete collaborators, for the examples *)
Module Examples.

Import Mqtt.

(** A configuration without subscribe topic, and one with a connect
    timeout of five seconds. *)
Definition noTopic : ConfigurationStruct :=
  {| MqttBroker := Fixtures.brokerConfig;
     Binding := {| SubscribeTopic := ""; PublishTopic := "responses" |} |}.

Definition timed : ConfigurationStruct :=
  {| MqttBroker :=
       {| Url := "tcp://localhost:1883"; ClientId := "app"; ConnectTimeout := "5s";
          AutoReconnect := true; KeepAlive := 30; QoS := Byte.x01; Retain := false;
          SkipCertVerify := false; SecretPath := ""; AuthMode := "none" |};
     Binding := {| SubscribeTopic := "events"; PublishTopic := "" |} |}.

(** A factory that makes a client only for the options of [timed]. *)
Definition timedFactory (opts : ClientOptions) : Client + string :=
  if bool_decide (optConnectTimeout opts = Some 5000000000%Z
                  /\ optServers opts = ["tcp://localhost:1883"]
                  /\ optClientID opts = "app"
                  /\ optKeepAlive opts = 30%Z
                  /\ optAutoReconnect opts = true)
  then inl Fixtures.goodClient
  else inr "unexpected options".

(** A pipeline that echoes its input and marks it for a retry as well. *)
Definition retryingRuntime (ctx : Context) (envelope : MessageEnvelope) : Context * error :=
  ({| CorrelationID := CorrelationID ctx; Configuration := Configuration ctx;
      OutputData := envPayload envelope; RetryData := Some (envPayload envelope) |}, None).

(** Parameter maps for the builders. *)
Definition withSecrets : gmap string string :=
  {[ "url" := "http://127.0.0.1:8080/somepath/foo"; "mimetype" := "application/json";
     "secretheadername1" := "Secret-Header-Name"; "secretpath" := "/path" ]}.

Definition qos258 : gmap string string :=
  {[ "qos" := "258"; "cert" := "client.crt"; "key" := "client.key" ]}.

Definition emptySkipVerify : gmap string string :=
  {[ "brokeraddress" := "tcp://localhost:1883"; "topic" := "out"; "secretpath" := "/mqtt";
     "authmode" := "none"; "clientid" := "app"; "skipverify" := "" ]}.

Definition noNumber : gmap string string :=
  {[ "timeinterval" := "10s"; "batchthreshold" := "ten" ]}.

Definition someTags : gmap string string :=
  {[ "tags" := "site:lab, unit:7 ,site:roof" ]}.

(** Modelled from the spec: [NewBatchByTimeAndCount], not among the sources;
    a count threshold of zero or less is rejected, and so is an interval
    that does not parse as a positive duration (section 4.3). *)
Definition NewBatchByTimeAndCount (timeInterval : string) (batchThreshold : Z)
    : option Transforms.BatchConfig * error :=
  match Transforms.NewBatchByCount batchThreshold with
  | (None, err) => (None, err)
  | (Some _, _) =>
      match Transforms.NewBatchByTime Fixtures.time_ParseDuration timeInterval with
      | (None, err) => (None, err)
      | (Some byTime, _) =>
          (Some {| Transforms.batchMode := Transforms.BatchByTimeAndCount;
                   Transforms.batchThreshold := batchThreshold;
                   Transforms.timeInterval := timeInterval;
                   Transforms.parsedDuration := Transforms.parsedDuration byTime |}, None)
      end
  end.

(** Stand-ins for [strings.FieldsFunc] with a separator and for
    [util.DeleteEmptyAndTrim], on ASCII text: the fields between the
    separators, the empty ones dropped; each field trimmed, and dropped
    when nothing is left of it. *)
Fixpoint fieldsFrom (separator : ascii) (s : string) (field : string) : list string :=
  match s with
  | EmptyString => if String.eqb field "" then [] else [field]
  | String ch rest =>
      if Ascii.eqb ch separator then
        if String.eqb field "" then fieldsFrom separator rest ""
        else field :: fieldsFrom separator rest ""
      else fieldsFrom separator rest (field +:+ String ch EmptyString)
  end.

Definition fieldsComma (s : string) : list string := fieldsFrom "," s "".
Definition fieldsColon (s : string) : list string := fieldsFrom ":" s "".

Definition DeleteEmptyAndTrim (fields : list string) : list string :=
  List.filter (fun field => negb (String.eqb field "")) (map Strconv.TrimSpace fields).

(** The publisher of the fixtures after its first three steps: one
    envelope observed, one buffered, one call pending. *)
Definition halfSchedule : list BackgroundPublisher.Action :=
  [BackgroundPublisher.Send 0; BackgroundPublisher.Receive; BackgroundPublisher.Send 1].

Definition midway : BackgroundPublisher.System :=
  {| BackgroundPublisher.output :=
       {| BackgroundPublisher.capacity := 1;
          BackgroundPublisher.buffer := [BackgroundPublisher.outputEnvelope Fixtures.b1] |};
     BackgroundPublisher.producers := [[Fixtures.a2]; []];
     BackgroundPublisher.observed := [BackgroundPublisher.outputEnvelope Fixtures.a1] |}.

End Examples.

(** * Properties *)

(** ** The MQTT trigger *)
Module MqttFacts.

Import Mqtt.

Section Handler.

Variable uuid_New : string.
Variable ProcessMessage : Context -> MessageEnvelope -> Context * error.
Variable trigger : Trigger.
Variable client : Client.

Lemma classify_cons b rest : classify (b :: rest) = ret (contentTypeOf b).
Proof.
  unfold classify, contentTypeOf; simpl.
  destruct (decide (b = byte_lbrace)) as [->|Hne]; [reflexivity|].
  destruct (Byte.eqb b byte_lbrace) eqn:E; [|reflexivity].
  apply Byte.byte_dec_bl in E. contradiction.
Qed.

(** The whole trace of the handler on a payload that has a first byte. *)
Lemma messageHandler_cons b rest :
  messageHandler uuid_New ProcessMessage trigger client (b :: rest) =
    let r := ProcessMessage (contextOf uuid_New trigger) (envelopeOf uuid_New b rest) in
    ([EvLog Trace "Received message from MQTT Trigger" [CorrelationHeader; uuid_New];
      EvLog Debug ("Received message from MQTT Trigger with "
                   +:+ pretty (length (b :: rest)) +:+ " bytes") [ContentType; contentTypeOf b]]
     ++ EvProcessMessage (envelopeOf uuid_New b rest) (fst r) (snd r)
     :: response uuid_New trigger client (fst r) (snd r),
     Some tt)%list.
Proof.
  unfold messageHandler. rewrite classify_cons. cbn [bind ret].
  unfold envelopeOf, contextOf, response, publishFailureLog, responseToken.
  destruct (ProcessMessage _ _) as [after [e|]]; [reflexivity|].
  cbn [fst snd].
  destruct (OutputData after) as [|o out];
    destruct (PublishTopic (Binding (configuration trigger))) as [|c topic];
    try reflexivity.
  cbn [length String.length Nat.ltb Nat.leb andb].
  destruct (tokenFailed _); reflexivity.
Qed.

Lemma messageHandler_nil :
  messageHandler uuid_New ProcessMessage trigger client [] = ([], None).
Proof. reflexivity. Qed.

(** C6: a payload whose first byte is an opening brace is classified as
    JSON and any other first byte as CBOR, and this is the content type of
    the envelope handed to the runtime; the payload [{?a?:1}] (double
    quotes for [?]) is JSON, the payload 01 02 is not. *)
Theorem messageHandler_content_type (b : Byte.byte) (rest : bytes) :
  let contentType := if decide (b = byte_lbrace) then ContentTypeJSON else ContentTypeCBOR in
  classify (b :: rest) = ret contentType
  /\ (exists after err,
        EvProcessMessage {| envCorrelationID := uuid_New;
                            envContentType := contentType;
                            envPayload := b :: rest |} after err
        ∈ events (messageHandler uuid_New ProcessMessage trigger client (b :: rest)))
  /\ classify Fixtures.jsonPayload = ret ContentTypeJSON
  /\ classify Fixtures.binaryPayload = ret ContentTypeCBOR.
Proof.
  cbv zeta. split; [apply classify_cons|]. split; [|split; reflexivity].
  rewrite messageHandler_cons. cbv zeta. unfold events. cbn [fst].
  eexists _, _. apply list_elem_of_In. cbn [app In]. right; right; left. reflexivity.
Qed.

(** C9, as the code has it: on a payload of length zero the inspection of
    byte 0 is out of bounds, and the handler panics before it has done
    anything. *)
Theorem messageHandler_empty_payload_panics :
  classify [] = panic
  /\ messageHandler uuid_New ProcessMessage trigger client [] = ([], None).
Proof. split; reflexivity. Qed.

(** The events of the handler, whatever the payload. *)
Lemma messageHandler_events payload :
  events (messageHandler uuid_New ProcessMessage trigger client payload) =
    match payload with
    | [] => []
    | b :: rest =>
        let r := ProcessMessage (contextOf uuid_New trigger) (envelopeOf uuid_New b rest) in
        EvLog Trace "Received message from MQTT Trigger" [CorrelationHeader; uuid_New]
        :: EvLog Debug ("Received message from MQTT Trigger with "
                        +:+ pretty (length payload) +:+ " bytes") [ContentType; contentTypeOf b]
        :: EvProcessMessage (envelopeOf uuid_New b rest) (fst r) (snd r)
        :: response uuid_New trigger client (fst r) (snd r)
    end.
Proof. destruct payload; [reflexivity|]. rewrite messageHandler_cons. reflexivity. Qed.

Lemma messageHandler_outcome payload :
  outcome (messageHandler uuid_New ProcessMessage trigger client payload) =
    match payload with [] => None | _ :: _ => Some tt end.
Proof. destruct payload; [reflexivity|]. rewrite messageHandler_cons. reflexivity. Qed.

End Handler.

Section Publishing.

Variable uuid_New : string.
Variable ProcessMessage : Context -> MessageEnvelope -> Context * error.
Variable trigger : Trigger.

Lemma effects_cons ev evs :
  effects (ev :: evs) = if isLog ev then effects evs else ev :: effects evs.
Proof. unfold effects; simpl. destruct (isLog ev); reflexivity. Qed.

Lemma response_effects client client' after err :
  effects (response uuid_New trigger client after err) =
  effects (response uuid_New trigger client' after err).
Proof.
  unfold response, publishFailureLog. destruct err; [reflexivity|].
  destruct (bool_decide _); [|reflexivity].
  destruct (tokenFailed (responseToken trigger client _)),
           (tokenFailed (responseToken trigger client' _)); reflexivity.
Qed.

(** C8: the handler publishes the context's output data to the publish
    topic exactly when the runtime returned no error, the output data is
    not empty and a publish topic is configured, and it does so once; a
    failed publication is logged, and the outcome of the publication
    changes neither how the handler ends nor anything it does besides
    logging. *)
Theorem messageHandler_publishes (client : Client) (payload : bytes) :
  let h := messageHandler uuid_New ProcessMessage trigger client payload in
  let topic := PublishTopic (Binding (configuration trigger)) in
  let broker := MqttBroker (configuration trigger) in
  (forall t q r d,
      EvPublish t q r d ∈ events h <->
      (exists envelope after,
          EvProcessMessage envelope after None ∈ events h /\ d = OutputData after)
      /\ d <> [] /\ t = topic /\ t <> "" /\ q = QoS broker /\ r = Retain broker)
  /\ (length (publications (events h)) <= 1)%nat
  /\ (forall d,
        EvPublish topic (QoS broker) (Retain broker) d ∈ events h ->
        (publishFailureLog trigger client d ∈ events h <->
         tokenFailed (responseToken trigger client d) = true))
  /\ forall client',
        let h' := messageHandler uuid_New ProcessMessage trigger client' payload in
        outcome h' = outcome h /\ effects (events h') = effects (events h).
Proof.
  cbv zeta. rewrite !messageHandler_events.
  destruct payload as [|b rest].
  { split; [|split; [simpl; lia|split]].
    - intros t q r d. split; [intros H; inversion H|].
      intros [(? & ? & H & _) _]. inversion H.
    - intros d H; inversion H.
    - intros client'. rewrite !messageHandler_outcome, messageHandler_events. done. }
  cbv zeta.
  destruct (ProcessMessage _ _) as [after err] eqn:EPM. cbn [fst snd].
  split; [|split; [|split]].
  - intros t q r d. unfold response, publishFailureLog.
    destruct err as [e|].
    + split.
      * intros H. apply list_elem_of_In in H. cbn in H. intuition discriminate.
      * intros [(env & aft & H & _) _]. apply list_elem_of_In in H. cbn in H. intuition discriminate.
    + case_bool_decide as Hc.
      * split.
        -- intros H. apply list_elem_of_In in H. cbn in H.
           destruct H as [H|[H|[H|[H|H]]]]; try discriminate.
           ++ inversion H; subst. split; [|tauto].
              exists (envelopeOf uuid_New b rest), after. split; [|reflexivity].
              apply list_elem_of_In. cbn. tauto.
           ++ destruct (tokenFailed _); cbn in H; intuition discriminate.
        -- intros [(env & aft & H & ->) (Hd & -> & Ht & -> & ->)].
           apply list_elem_of_In in H. cbn in H.
           destruct H as [H|[H|[H|[H|H]]]]; try discriminate.
           ++ inversion H; subst. apply list_elem_of_In. cbn. tauto.
           ++ destruct (tokenFailed _); cbn in H; intuition discriminate.
      * split.
        -- intros H. apply list_elem_of_In in H. cbn in H. intuition discriminate.
        -- intros [(env & aft & H & ->) (Hd & -> & Ht & -> & ->)].
           apply list_elem_of_In in H. cbn in H.
           destruct H as [H|[H|[H|H]]]; try discriminate; [|done].
           inversion H; subst. tauto.
  - unfold response, publishFailureLog. destruct err; [simpl; lia|].
    case_bool_decide; [|simpl; lia]. destruct (tokenFailed _); simpl; lia.
  - intros d H. apply list_elem_of_In in H. cbn in H.
    destruct H as [H|[H|[H|H]]]; try discriminate.
    unfold response in *. destruct err; [inversion H|].
    case_bool_decide; [|inversion H].
    cbn in H. destruct H as [H|H].
    + inversion H; subst d.
      destruct (tokenFailed _) eqn:Ho.
      * split; [reflexivity|]. intros _. apply list_elem_of_In. cbn. tauto.
      * split; [|discriminate]. intros Hl. apply list_elem_of_In in Hl. cbn in Hl.
        unfold publishFailureLog in Hl. intuition discriminate.
    + destruct (tokenFailed _); cbn in H; unfold publishFailureLog in H; intuition discriminate.
  - intros client'. rewrite !messageHandler_outcome, messageHandler_events.
    cbv zeta. rewrite EPM. cbn [fst snd]. split; [reflexivity|].
    rewrite !effects_cons. cbn [isLog]. f_equal. apply response_effects.
Qed.

End Publishing.

Section Initializing.

Variable url_Parse : string -> string + string.
Variable time_ParseDuration : string -> Z + string.
Variable mqttFactory_Create : ClientOptions -> Client + string.
Variable trigger : Trigger.

Let Init {Chan : Type} := @Initialize url_Parse time_ParseDuration mqttFactory_Create Chan.

(** C7: handed a background-publish channel, [Initialize] returns no
    deferred action and an error, having done nothing but log its first
    line: it has not connected to the broker. *)
Theorem Initialize_rejects_background {Chan : Type} (background : Chan) :
  Init trigger (Some background) =
    ([EvLog Info "Initializing MQTT Trigger" []],
     Some (trigger,
           (None, Some "background publishing not supported for services using MQTT trigger")))
  /\ EvConnect ∉ events (Init trigger (Some background)).
Proof.
  assert (E : Init trigger (Some background) =
    ([EvLog Info "Initializing MQTT Trigger" []],
     Some (trigger,
           (None, Some "background publishing not supported for services using MQTT trigger"))))
    by reflexivity.
  split; [exact E|]. rewrite E. cbn. intros H. apply list_elem_of_In in H. cbn in H.
  intuition discriminate.
Qed.

(** The on-connect handler when the subscription fails: it disconnects
    and logs, and has no way to report to [Initialize]. *)
Lemma onConnectHandler_subscribe_failure (client : Client) :
  let topic := SubscribeTopic (Binding (configuration trigger)) in
  let qos := QoS (MqttBroker (configuration trigger)) in
  tokenFailed (subscribeToken client topic qos) = true ->
  onConnectHandler trigger client =
    ([EvSubscribe topic qos; EvDisconnect 0;
      EvLog Error ("could not subscribe to topic '" +:+ topic +:+ "' for MQTT trigger: "
                   +:+ default "" (TokenError (subscribeToken client topic qos))) []],
     Some tt).
Proof. cbv zeta. intros H. unfold onConnectHandler. rewrite H. reflexivity. Qed.

Lemma outcome_logger {A} level msg args (k : unit -> M A) :
  outcome (bind (logger level msg args) k) = outcome (k tt).
Proof. unfold logger, tell, bind, outcome. destruct (k tt); reflexivity. Qed.

(** From the connection on, the outcome is the connection's. *)
Lemma Initialize_tail (client : Client) :
  outcome (
    bind (Connect trigger client) (fun token =>
      if tokenFailed token then
        ret (trigger, (@None Deferred,
                       Some ("could not connect to broker for MQTT trigger: "
                             +:+ default "" (TokenError token))))
      else
        bind (logger Info "Connected to mqtt server for MQTT trigger" []) (fun _ =>
          ret ({| configuration := configuration trigger; mqttClient := Some client |},
               (Some DisconnectBroker, @None string))))) =
    Some (if tokenFailed (connectToken client)
          then (trigger,
                (None, Some ("could not connect to broker for MQTT trigger: "
                             +:+ default "" (TokenError (connectToken client)))))
          else ({| configuration := configuration trigger; mqttClient := Some client |},
                (Some DisconnectBroker, None))).
Proof.
  unfold Connect, onConnectHandler.
  destruct (connectToken client) as [w [e|]]; cbn [TokenError].
  - destruct w; reflexivity.
  - destruct (tokenFailed (subscribeToken _ _ _)); destruct w; reflexivity.
Qed.

(** C3, amended: when [Initialize] gets as far as connecting, a failed
    connection makes it return no deferred action and the connection
    error; otherwise it returns the deferred action and no error, whatever
    became of the subscription, whose failure the on-connect handler
    answers by disconnecting and logging. *)
Theorem Initialize_connect_decides (client : Client) (brokerUrl : string) :
  let topic := SubscribeTopic (Binding (configuration trigger)) in
  let broker := MqttBroker (configuration trigger) in
  topic <> "" ->
  url_Parse (Url broker) = inl brokerUrl ->
  (ConnectTimeout broker = "" \/
   exists duration, time_ParseDuration (ConnectTimeout broker) = inl duration) ->
  (forall opts, mqttFactory_Create opts = inl client) ->
  outcome (Init trigger (@None unit)) =
    Some (if tokenFailed (connectToken client)
          then (trigger,
                (None, Some ("could not connect to broker for MQTT trigger: "
                             +:+ default "" (TokenError (connectToken client)))))
          else ({| configuration := configuration trigger; mqttClient := Some client |},
                (Some DisconnectBroker, None)))
  /\ (tokenFailed (subscribeToken client topic (QoS broker)) = true ->
      onConnectHandler trigger client =
        ([EvSubscribe topic (QoS broker); EvDisconnect 0;
          EvLog Error ("could not subscribe to topic '" +:+ topic +:+ "' for MQTT trigger: "
                       +:+ default "" (TokenError (subscribeToken client topic (QoS broker)))) []],
         Some tt)).
Proof.
  cbv zeta. intros Htopic Hurl Htimeout Hcreate.
  split; [|apply onConnectHandler_subscribe_failure].
  unfold Init, Initialize. cbv zeta. rewrite Hurl.
  destruct (SubscribeTopic (Binding (configuration trigger))) as [|c topic] eqn:Et; [done|].
  rewrite outcome_logger.
  change (bool_decide (is_Some (@None unit))) with false.
  cbn [String.length Nat.eqb].
  destruct Htimeout as [Ht|[duration Ht]]; rewrite Ht.
  - cbn [String.length Nat.ltb Nat.leb]. rewrite Hcreate, outcome_logger.
    apply Initialize_tail.
  - destruct (0 <? _)%nat; rewrite Hcreate, outcome_logger; apply Initialize_tail.
Qed.

End Initializing.

(** C3, as stated, fails: the subscription is refused, and [Initialize]
    returns its deferred action and no error. *)
Lemma Initialize_succeeds_although_subscribe_failed :
  let r := Initialize Fixtures.url_Parse Fixtures.time_ParseDuration
                      (fun _ => inl Fixtures.cannotSubscribeClient)
                      Fixtures.trigger (@None unit) in
  EvSubscribe "events" Byte.x00 ∈ events r
  /\ tokenFailed (subscribeToken Fixtures.cannotSubscribeClient "events" Byte.x00) = true
  /\ snd <$> outcome r = Some (Some DisconnectBroker, None).
Proof.
  cbv zeta. split; [|split; reflexivity].
  apply list_elem_of_In. vm_compute. tauto.
Qed.

Lemma Initialize_connect_decides_witness :
  outcome (Initialize Fixtures.url_Parse Fixtures.time_ParseDuration
                      (fun _ => inl Fixtures.unreachableClient)
                      Fixtures.trigger (@None unit)) =
    Some (Fixtures.trigger,
          (None, Some "could not connect to broker for MQTT trigger: network Error : dial tcp: connection refused")).
Proof.
  apply (Initialize_connect_decides Fixtures.url_Parse Fixtures.time_ParseDuration
           (fun _ => inl Fixtures.unreachableClient) Fixtures.trigger
           Fixtures.unreachableClient "tcp://localhost:1883").
  - discriminate.
  - reflexivity.
  - left; reflexivity.
  - reflexivity.
Defined.

(** The handler on the two payloads of the round trip, with a pipeline
    that echoes its input: the response is published once, and a refused
    publication leaves one more log entry. *)
Example messageHandler_echo_json :
  publications (events (messageHandler Fixtures.uuid_New Fixtures.echoRuntime Fixtures.trigger
                                       Fixtures.goodClient Fixtures.jsonPayload))
  = [("responses", Byte.x00, false, Fixtures.jsonPayload)].
Proof. reflexivity. Qed.

Example messageHandler_echo_publish_refused :
  let h := messageHandler Fixtures.uuid_New Fixtures.echoRuntime Fixtures.trigger
                          Fixtures.cannotPublishClient Fixtures.binaryPayload in
  publications (events h) = [("responses", Byte.x00, false, Fixtures.binaryPayload)]
  /\ last (events h) = Some (EvLog Error "could not publish to topic '%s' for MQTT trigger: %s"
                                   ["responses"; "not Connected"])
  /\ outcome h = Some tt.
Proof. repeat split; reflexivity. Qed.

(** [Initialize] against a broker that accepts the connection and the
    subscription. *)
Example Initialize_good_broker :
  Initialize Fixtures.url_Parse Fixtures.time_ParseDuration (fun _ => inl Fixtures.goodClient)
             Fixtures.trigger (@None unit)
  = ([EvLog Info "Initializing MQTT Trigger" [];
      EvLog Info "Connecting to mqtt broker for MQTT trigger at: tcp://localhost:1883" [];
      EvConnect;
      EvSubscribe "events" Byte.x00;
      EvLog Info "Subscribed to topic 'events' for MQTT trigger" [];
      EvLog Info "Connected to mqtt server for MQTT trigger" []],
     Some ({| Mqtt.configuration := Fixtures.config; mqttClient := Some Fixtures.goodClient |},
           (Some DisconnectBroker, None))).
Proof. reflexivity. Qed.

End MqttFacts.

(** ** The HTTP sender *)
Module SenderFacts.

Import Transforms.

Section Sending.

Variable GetSecrets : string -> list string -> gmap string string + string.
Variable endpoint : Request -> Response.
Variable sender : HTTPSender.
Variable method : Method.
Variable ctx : Context.

Let send := httpSend GetSecrets endpoint sender method ctx.

Lemma setRetryData_RetryData (payload : bytes) :
  RetryData (setRetryData sender ctx payload) =
    if PersistOnError sender then Some payload else RetryData ctx.
Proof. unfold setRetryData. destruct (PersistOnError sender); reflexivity. Qed.

(** C1: a send that fails, because the endpoint does not accept the
    request (it answers 404, say) or because the secret cannot be fetched,
    returns [(false, error)]; the retry data of the context is then the
    very bytes that were to be sent when the sender persists on error, and
    is left as it was (unset, if it was unset) when it does not. *)
Theorem send_failure_retry_contract (data : Value) (rest : list Value) (exportData : bytes) :
  CoerceType data = inl exportData ->
  sendFails GetSecrets endpoint sender method exportData ->
  continue (send (data :: rest)) = false
  /\ (exists err, result (send (data :: rest)) = inr err)
  /\ RetryData (context (send (data :: rest))) =
       (if PersistOnError sender then Some exportData else RetryData ctx)
  /\ (PersistOnError sender = false -> RetryData ctx = None ->
      RetryData (context (send (data :: rest))) = None).
Proof.
  intros Hdata (usingSecrets & Hsecrets & Hfails).
  unfold send, httpSend. rewrite Hdata, Hsecrets.
  assert (Hfailed : forall err,
    (exists err', @inr Value string err = inr err')
    /\ RetryData (setRetryData sender ctx exportData) =
         (if PersistOnError sender then Some exportData else RetryData ctx)
    /\ (PersistOnError sender = false -> RetryData ctx = None ->
        RetryData (setRetryData sender ctx exportData) = None)).
  { intros err. rewrite setRetryData_RetryData. split; [eauto|]. split; [reflexivity|].
    intros -> ->. reflexivity. }
  destruct (secretHeader GetSecrets sender usingSecrets) as [header|err].
  - destruct (sendFailure _) as [err|]; [|done].
    cbn [continue result context]. split; [reflexivity|apply Hfailed].
  - cbn [continue result context]. split; [reflexivity|apply Hfailed].
Qed.

(** C5: without any input the send returns [(false, error)] with the text
    [No Data Received]; with an input that is neither bytes, nor a
    string, nor marshalable to JSON it returns [(false, error)] with the
    marshaling text; neither sends a request or touches the context. *)
Theorem send_rejects_missing_or_unmarshalable_input (data : Value) (rest : list Value) :
  send [] = {| sent := []; context := ctx; continue := false;
               result := inr "No Data Received" |}
  /\ ((forall b, data <> VBytes b) ->
      (forall s, data <> VString s) ->
      (forall json, data <> VMarshalable json) ->
      send (data :: rest) =
        {| sent := []; context := ctx; continue := false;
           result := inr "marshaling input data to JSON failed, passed in data must be of type []byte, string, or support marshaling to JSON" |}).
Proof.
  split; [reflexivity|]. intros Hb Hs Hj.
  destruct data as [b|s|json|]; [destruct (Hb b)|destruct (Hs s)|destruct (Hj json)|]; reflexivity.
Qed.

End Sending.

(** The scenario of the sender's tests: an endpoint answering 404, a sender
    that persists on error, and the same sender not persisting. *)
Lemma send_failure_retry_contract_witness :
  let persisting := NewHTTPSender (Fixtures.host +:+ Fixtures.badPath) "" true in
  let dropping := NewHTTPSender (Fixtures.host +:+ Fixtures.badPath) "" false in
  let send sender := httpSend Fixtures.GetSecrets Fixtures.endpoint sender MethodPost
                              Fixtures.context [VString Fixtures.msgStr] in
  (continue (send persisting) = false
   /\ RetryData (context (send persisting)) = Some (bytes_of_string Fixtures.msgStr))
  /\ (continue (send dropping) = false
      /\ RetryData (context (send dropping)) = None).
Proof.
  cbv zeta.
  assert (Hfails : forall persist,
            sendFails Fixtures.GetSecrets Fixtures.endpoint
                      (NewHTTPSender (Fixtures.host +:+ Fixtures.badPath) "" persist)
                      MethodPost (bytes_of_string Fixtures.msgStr)).
  { intros persist. exists false. split; [reflexivity|]. destruct persist; discriminate. }
  pose proof (send_failure_retry_contract Fixtures.GetSecrets Fixtures.endpoint
                (NewHTTPSender (Fixtures.host +:+ Fixtures.badPath) "" true)
                MethodPost Fixtures.context (VString Fixtures.msgStr) []
                (bytes_of_string Fixtures.msgStr) eq_refl (Hfails true)) as (H1 & _ & H2 & _).
  pose proof (send_failure_retry_contract Fixtures.GetSecrets Fixtures.endpoint
                (NewHTTPSender (Fixtures.host +:+ Fixtures.badPath) "" false)
                MethodPost Fixtures.context (VString Fixtures.msgStr) []
                (bytes_of_string Fixtures.msgStr) eq_refl (Hfails false)) as (H3 & _ & _ & H4).
  split; [split; [exact H1|exact H2]|split; [exact H3|exact (H4 eq_refl eq_refl)]].
Defined.

Lemma send_rejects_missing_or_unmarshalable_input_witness :
  httpSend Fixtures.GetSecrets Fixtures.endpoint (NewHTTPSender "" "" false) MethodPost
           Fixtures.context [VUnmarshalable] =
    {| sent := []; context := Fixtures.context; continue := false;
       result := inr "marshaling input data to JSON failed, passed in data must be of type []byte, string, or support marshaling to JSON" |}.
Proof.
  apply (send_rejects_missing_or_unmarshalable_input Fixtures.GetSecrets Fixtures.endpoint
           (NewHTTPSender "" "" false) MethodPost Fixtures.context VUnmarshalable []);
    discriminate.
Defined.

End SenderFacts.

(** ** The configurable builders *)
Module BuilderFacts.

Import Transforms Configurable.

Section Builders.

Variable strings_TrimSpace : string -> string.

Lemma mismatched_plain (secretHeaderName secretPath : string) :
  mismatched secretHeaderName secretPath ->
  nonEmpty secretHeaderName && nonEmpty secretPath = false.
Proof.
  intros [[-> _]|[_ ->]]; [reflexivity|].
  destruct (nonEmpty secretHeaderName); reflexivity.
Qed.

Lemma HTTPPost_plain (parameters : gmap string string) (url mimeType : string)
    (persistOnError : bool) :
  parameters !! Url = Some url ->
  parameters !! MimeType = Some mimeType ->
  persistOf parameters persistOnError ->
  nonEmpty (index parameters SecretHeaderName1) && nonEmpty (index parameters SecretPath) = false ->
  outcome (HTTPPost strings_TrimSpace parameters) =
    Some (Some (HTTPPostFn (NewHTTPSender (strings_TrimSpace url) (strings_TrimSpace mimeType)
                                          persistOnError))).
Proof.
  intros Hurl Hmime Hpersist Hplain. unfold HTTPPost, persistOf in *.
  rewrite Hurl, Hmime, Hplain.
  destruct (parameters !! PersistOnError) as [value|]; [rewrite Hpersist|subst]; reflexivity.
Qed.

Lemma HTTPPut_plain (parameters : gmap string string) (url mimeType : string)
    (persistOnError : bool) :
  parameters !! Url = Some url ->
  parameters !! MimeType = Some mimeType ->
  persistOf parameters persistOnError ->
  nonEmpty (index parameters SecretHeaderName1) && nonEmpty (index parameters SecretPath) = false ->
  outcome (HTTPPut strings_TrimSpace parameters) =
    Some (Some (HTTPPutFn (NewHTTPSender (strings_TrimSpace url) (strings_TrimSpace mimeType)
                                         persistOnError))).
Proof.
  intros Hurl Hmime Hpersist Hplain. unfold HTTPPut, persistOf in *.
  rewrite Hurl, Hmime, Hplain.
  destruct (parameters !! PersistOnError) as [value|]; [rewrite Hpersist|subst]; reflexivity.
Qed.

(** A sender made with a mismatched secret configuration refuses each
    send before any request goes out. *)
Lemma httpSend_mismatched GetSecrets endpoint (sender : HTTPSender) method ctx data rest exportData :
  CoerceType data = inl exportData ->
  mismatched (SecretHeaderName sender) (Transforms.SecretPath sender) ->
  httpSend GetSecrets endpoint sender method ctx (data :: rest) =
    {| sent := []; context := ctx; continue := false;
       result := inr (if String.eqb (SecretHeaderName sender) ""
                      then "SecretPath was specified but no header name was provided"
                      else "HTTP Header Secret Name was provided but no SecretPath was provided") |}.
Proof.
  intros Hdata Hmis. unfold httpSend. rewrite Hdata. unfold determineIfUsingSecrets.
  destruct Hmis as [[-> Hp]|[Hn ->]].
  - destruct (Transforms.SecretPath sender); [done|reflexivity].
  - destruct (SecretHeaderName sender); [done|reflexivity].
Qed.

(** C2, amended: a parameter map that names a secret path but no secret
    header name, or the reverse, is not rejected by the builders
    [HTTPPost] and [HTTPPut]: with url and mimetype present and
    persistonerror absent or a boolean, each yields the send function of
    a plain sender, which carries neither secret header name nor secret
    path.  The two error texts belong to the send of a sender constructed
    with such a mismatch, which returns them before any request. *)
Theorem HTTP_builders_accept_secret_mismatch (parameters : gmap string string)
    (url mimeType : string) (persistOnError : bool) :
  parameters !! Url = Some url ->
  parameters !! MimeType = Some mimeType ->
  persistOf parameters persistOnError ->
  mismatched (index parameters SecretHeaderName1) (index parameters SecretPath) ->
  let plain := NewHTTPSender (strings_TrimSpace url) (strings_TrimSpace mimeType) persistOnError in
  outcome (HTTPPost strings_TrimSpace parameters) = Some (Some (HTTPPostFn plain))
  /\ outcome (HTTPPut strings_TrimSpace parameters) = Some (Some (HTTPPutFn plain))
  /\ SecretHeaderName plain = "" /\ Transforms.SecretPath plain = ""
  /\ forall GetSecrets endpoint method ctx data rest exportData,
       CoerceType data = inl exportData ->
       let direct := NewHTTPSenderWithSecretHeader (strings_TrimSpace url)
                       (strings_TrimSpace mimeType) persistOnError
                       (index parameters SecretHeaderName1)
                       (index parameters SecretHeaderName2)
                       (index parameters SecretPath) in
       httpSend GetSecrets endpoint direct method ctx (data :: rest) =
         {| sent := []; context := ctx; continue := false;
            result := inr (if String.eqb (index parameters SecretHeaderName1) ""
                           then "SecretPath was specified but no header name was provided"
                           else "HTTP Header Secret Name was provided but no SecretPath was provided") |}.
Proof.
  intros Hurl Hmime Hpersist Hmis. cbv zeta.
  pose proof (mismatched_plain _ _ Hmis) as Hplain.
  split; [eapply HTTPPost_plain; eauto|].
  split; [eapply HTTPPut_plain; eauto|].
  split; [reflexivity|]. split; [reflexivity|].
  intros GetSecrets endpoint method ctx data rest exportData Hdata.
  eapply httpSend_mismatched; eassumption.
Qed.

End Builders.

(** C2, as stated, fails: the stage with a secret path and no header name
    is built, without an error being logged, into a function. *)
Lemma HTTPPost_builds_despite_secret_mismatch :
  index secretPathOnly SecretPath = "/path"
  /\ index secretPathOnly SecretHeaderName1 = ""
  /\ HTTPPost Strconv.TrimSpace secretPathOnly =
       ([EvLog Debug "HTTPPost Parameters"
               ["url"; "http://127.0.0.1:8080/somepath/foo"; "mimetype"; "application/json"]],
        Some (Some (HTTPPostFn (NewHTTPSender "http://127.0.0.1:8080/somepath/foo"
                                              "application/json" false)))).
Proof. split; [|split]; reflexivity. Qed.

Lemma HTTP_builders_accept_secret_mismatch_witness :
  outcome (HTTPPost Strconv.TrimSpace secretPathOnly) =
    Some (Some (HTTPPostFn (NewHTTPSender "http://127.0.0.1:8080/somepath/foo"
                                          "application/json" false))).
Proof.
  refine (proj1 (HTTP_builders_accept_secret_mismatch Strconv.TrimSpace secretPathOnly
                   "http://127.0.0.1:8080/somepath/foo" "application/json" false
                   eq_refl eq_refl eq_refl _)).
  left. split; [reflexivity|discriminate].
Defined.

Section Batch.

Variable NewBatchByCount : Z -> option BatchConfig * error.
Variable NewBatchByTime : string -> option BatchConfig * error.

(** Once the threshold is an integer, [BatchByCount] returns the method
    value whatever the constructor answered. *)
Lemma BatchByCount_yields (parameters : gmap string string) (batchThreshold : string)
    (thresholdValue : Z) :
  parameters !! BatchThreshold = Some batchThreshold ->
  Strconv.Atoi batchThreshold = inl thresholdValue ->
  outcome (BatchByCount NewBatchByCount parameters) =
    Some (Some (BatchFn (fst (NewBatchByCount thresholdValue)))).
Proof.
  intros Hp Ha. unfold BatchByCount. rewrite Hp, Ha.
  destruct (NewBatchByCount thresholdValue) as [transform [e|]]; reflexivity.
Qed.

(** Once the interval is present, so does [BatchByTime]. *)
Lemma BatchByTime_yields (parameters : gmap string string) (timeInterval : string) :
  parameters !! TimeInterval = Some timeInterval ->
  outcome (BatchByTime NewBatchByTime parameters) =
    Some (Some (BatchFn (fst (NewBatchByTime timeInterval)))).
Proof.
  intros Hp. unfold BatchByTime. rewrite Hp.
  destruct (NewBatchByTime timeInterval) as [transform [e|]]; reflexivity.
Qed.

(** The builders return nil only for a missing parameter or a threshold
    that is no integer. *)
Lemma BatchByCount_nil_iff (parameters : gmap string string) :
  outcome (BatchByCount NewBatchByCount parameters) = Some None <->
  match parameters !! BatchThreshold with
  | None => True
  | Some batchThreshold => exists err, Strconv.Atoi batchThreshold = inr err
  end.
Proof.
  unfold BatchByCount. destruct (parameters !! BatchThreshold) as [batchThreshold|]; [|done].
  destruct (Strconv.Atoi batchThreshold) as [v|err].
  - destruct (NewBatchByCount v) as [transform [e|]]; cbn; split;
      [discriminate|intros [? ?]; discriminate|discriminate|intros [? ?]; discriminate].
  - cbn. split; eauto.
Qed.

End Batch.

(** C4, as the code has it: for a count threshold of zero or below, and for
    a time interval that is no duration or not a positive one, the
    constructor's error is logged and the builder still returns a function,
    the method value [Batch] of the nil configuration, not nil. *)
Theorem Batch_builders_return_function_for_rejected_stage :
  BatchByCount NewBatchByCount {[ BatchThreshold := "0" ]} =
    ([EvLog Error "batch threshold must be greater than zero" [];
      EvLog Debug "Batch by count Parameters" [BatchThreshold; "0"]],
     Some (Some (BatchFn None)))
  /\ outcome (BatchByCount NewBatchByCount {[ BatchThreshold := "-3" ]}) = Some (Some (BatchFn None))
  /\ BatchByTime (NewBatchByTime Fixtures.time_ParseDuration) {[ TimeInterval := "soon" ]} =
       ([EvLog Error ("time: invalid duration " +:+ Strconv.Quote "soon") [];
         EvLog Debug "Batch by time Parameters" [TimeInterval; "soon"]],
        Some (Some (BatchFn None)))
  /\ outcome (BatchByTime (NewBatchByTime Fixtures.time_ParseDuration) {[ TimeInterval := "0" ]})
     = Some (Some (BatchFn None)).
Proof. repeat split; reflexivity. Qed.

End BuilderFacts.

(** ** The background publisher *)
Module BackgroundPublisherFacts.

Import BackgroundPublisher.

Section Lists.

Context {A : Type}.

Lemma concat_insert_tail (ls : list (list A)) i x xs :
  ls !! i = Some (x :: xs) ->
  concat ls ≡ₚ x :: concat (<[i := xs]> ls).
Proof.
  revert i. induction ls as [|l ls IH]; intros [|i] H; try discriminate.
  - injection H as ->. reflexivity.
  - cbn [concat]. change (<[S i:=xs]> (l :: ls)) with (l :: <[i:=xs]> ls).
    cbn [concat]. rewrite (IH i H). symmetry. apply Permutation_middle.
Qed.

Lemma Interleaving_Permutation (ls : list (list A)) (l : list A) :
  Interleaving ls l -> l ≡ₚ concat ls.
Proof.
  induction 1 as [ls Hnil|ls i x xs l Hi _ IH].
  - induction Hnil as [|? ? -> _ IH]; [reflexivity|exact IH].
  - rewrite (concat_insert_tail ls i x xs Hi), IH. reflexivity.
Qed.

Lemma Forall_nil_lookup (ls : list (list A)) :
  Forall (fun l => l = []) ls <-> forall i x xs, ls !! i <> Some (x :: xs).
Proof.
  rewrite Forall_lookup. split.
  - intros H i x xs Hi. specialize (H i _ Hi). discriminate.
  - intros H i [|x xs] Hi; [reflexivity|]. destruct (H i x xs Hi).
Qed.

End Lists.

Lemma length_concat_fmap {A B : Type} (f : A -> B) (ls : list (list A)) :
  length (concat (map (map f) ls)) = length (concat ls).
Proof.
  induction ls as [|l ls IH]; [reflexivity|].
  cbn [map concat]. rewrite !length_app, length_map, IH. reflexivity.
Qed.

Lemma pending_insert (s : System) i call rest :
  producers s !! i = Some (call :: rest) ->
  pending s = S (length (concat (<[i := rest]> (producers s)))).
Proof.
  intros H. unfold pending.
  rewrite (Permutation_length (concat_insert_tail _ _ _ _ H)). reflexivity.
Qed.

(** Each step is progress. *)
Lemma exec_measure (a : Action) (s s' : System) :
  exec a s = Some s' -> measure s' < measure s.
Proof.
  unfold exec, measure. destruct a as [i|i|].
  - destruct (producers s !! i) as [[|call rest]|] eqn:Hi; try discriminate.
    destruct (_ <? _)%nat; [|discriminate]. intros [= <-].
    rewrite (pending_insert s i call rest Hi). unfold pending.
    cbn [producers output buffer]. rewrite length_app. cbn [length]. clear Hi. lia.
  - destruct (producers s !! i) as [[|call rest]|] eqn:Hi; try discriminate.
    destruct (buffer (output s)) eqn:Hb; [|discriminate]. intros [= <-].
    rewrite (pending_insert s i call rest Hi). unfold pending.
    cbn [producers output buffer]. rewrite Hb. cbn [length]. clear Hi. lia.
  - destruct (buffer (output s)) eqn:Hb; [discriminate|]. intros [= <-].
    unfold pending. cbn [producers output buffer length]. lia.
Qed.

Lemma run_measure (schedule : list Action) (s s' : System) :
  run schedule s = Some s' -> length schedule + measure s' <= measure s.
Proof.
  revert s. induction schedule as [|a schedule IH]; intros s; cbn [run length].
  - intros [= <-]. lia.
  - destruct (exec a s) as [s1|] eqn:Ha; [|discriminate].
    intros H. apply IH in H. apply exec_measure in Ha. lia.
Qed.

(** The buffer never holds more than the capacity, which never changes. *)
Lemma exec_capacity (a : Action) (s s' : System) :
  exec a s = Some s' ->
  length (buffer (output s)) <= capacity (output s) ->
  capacity (output s') = capacity (output s)
  /\ length (buffer (output s')) <= capacity (output s').
Proof.
  unfold exec. destruct a as [i|i|].
  - destruct (producers s !! i) as [[|call rest]|]; try discriminate.
    destruct (_ <? _)%nat eqn:Hlt; [|discriminate]. intros [= <-] _.
    apply Nat.ltb_lt in Hlt. cbn [output capacity buffer].
    rewrite length_app. cbn [length]. split; [reflexivity|lia].
  - destruct (producers s !! i) as [[|call rest]|]; try discriminate.
    destruct (buffer (output s)) eqn:Hb; [|discriminate]. intros [= <-] H.
    cbn [output]. rewrite Hb. split; [reflexivity|exact H].
  - destruct (buffer (output s)); [discriminate|]. intros [= <-] H.
    cbn [output capacity buffer length] in *. split; [reflexivity|lia].
Qed.

Lemma run_capacity (schedule : list Action) (s s' : System) :
  run schedule s = Some s' ->
  length (buffer (output s)) <= capacity (output s) ->
  capacity (output s') = capacity (output s)
  /\ length (buffer (output s')) <= capacity (output s').
Proof.
  revert s. induction schedule as [|a schedule IH]; intros s; cbn.
  - intros [= <-]. auto.
  - destruct (exec a s) as [s1|] eqn:Ha; [|discriminate].
    intros H Hle. destruct (exec_capacity _ _ _ Ha Hle) as [Hc Hl].
    destruct (IH _ H Hl) as [Hc' Hl']. split; [congruence|assumption].
Qed.

(** Nothing is enabled exactly when everything is done: no deadlock. *)
Lemma quiescent_completed (s : System) : quiescent s <-> completed s.
Proof.
  unfold quiescent, completed. split.
  - intros H. split.
    + apply Forall_nil_lookup. intros i call rest Hi.
      destruct (buffer (output s)) as [|e b] eqn:Hb.
      * specialize (H (Handoff i)). cbn in H. rewrite Hi, Hb in H. discriminate.
      * specialize (H Receive). cbn in H. rewrite Hb in H. discriminate.
    + specialize (H Receive). cbn in H. destruct (buffer (output s)); [reflexivity|discriminate].
  - intros [Hnil Hb] a. rewrite Forall_nil_lookup in Hnil.
    destruct a as [i|i|]; cbn.
    + destruct (producers s !! i) as [[|call rest]|] eqn:Hi; try reflexivity.
      destruct (Hnil _ _ _ Hi).
    + destruct (producers s !! i) as [[|call rest]|] eqn:Hi; try reflexivity.
      destruct (Hnil _ _ _ Hi).
    + rewrite Hb. reflexivity.
Qed.

(** What the consumer sees until completion: first what is buffered, then
    an order-preserving merge of what the producers still have to publish. *)
Lemma run_interleaving (schedule : list Action) (s s' : System) :
  run schedule s = Some s' ->
  completed s' ->
  exists l, observed s' = observed s ++ buffer (output s) ++ l
            /\ Interleaving (map (map outputEnvelope) (producers s)) l.
Proof.
  revert s. induction schedule as [|a schedule IH]; intros s; cbn [run].
  - intros [= <-] [Hnil Hb]. exists []. rewrite Hb, !app_nil_r. split; [reflexivity|].
    apply Interleaving_done. apply Forall_fmap. eapply Forall_impl; [exact Hnil|].
    intros l ->. reflexivity.
  - destruct (exec a s) as [s1|] eqn:Ha; [|discriminate]. intros Hrun Hdone.
    destruct (IH s1 Hrun Hdone) as (l & Hobs & Hmerge). clear IH Hrun.
    unfold exec in Ha. destruct a as [i|i|].
    + destruct (producers s !! i) as [[|call rest]|] eqn:Hi; try discriminate.
      destruct (_ <? _)%nat; [|discriminate]. injection Ha as <-.
      cbn [observed output buffer producers] in *.
      exists (outputEnvelope call :: l). split.
      * rewrite Hobs, <- !app_assoc. reflexivity.
      * apply Interleaving_next with (i := i) (xs := map outputEnvelope rest).
        -- rewrite list_lookup_fmap, Hi. reflexivity.
        -- rewrite <- list_fmap_insert. exact Hmerge.
    + destruct (producers s !! i) as [[|call rest]|] eqn:Hi; try discriminate.
      destruct (buffer (output s)) eqn:Hb; [|discriminate]. injection Ha as <-.
      cbn [observed output buffer producers] in *. rewrite Hb in Hobs.
      exists (outputEnvelope call :: l). split.
      * rewrite Hobs, <- !app_assoc. reflexivity.
      * apply Interleaving_next with (i := i) (xs := map outputEnvelope rest).
        -- rewrite list_lookup_fmap, Hi. reflexivity.
        -- rewrite <- list_fmap_insert. exact Hmerge.
    + destruct (buffer (output s)) as [|envelope rest] eqn:Hb; [discriminate|].
      injection Ha as <-. cbn [observed output buffer producers] in *.
      exists l. split; [|exact Hmerge].
      rewrite Hobs, <- !app_assoc. reflexivity.
Qed.

(** From every state the calls can all be completed. *)
Lemma completion_reachable (s : System) :
  exists schedule s', run schedule s = Some s' /\ completed s'.
Proof.
  remember (measure s) as n eqn:Hn. revert s Hn.
  induction n as [n IH] using lt_wf_ind. intros s ->.
  assert (Hstep : forall a s1, exec a s = Some s1 ->
            exists schedule s', run schedule s = Some s' /\ completed s').
  { intros a s1 Ha.
    destruct (IH (measure s1) (exec_measure _ _ _ Ha) s1 eq_refl) as (schedule & s' & Hrun & Hdone).
    exists (a :: schedule), s'. cbn [run]. rewrite Ha. auto. }
  destruct (buffer (output s)) as [|envelope rest] eqn:Hb.
  - destruct (Forall_Exists_dec (fun calls : list PublishCall => calls = [])
                (fun calls => calls <> [])
                (fun calls => decide (calls = [])) (producers s)) as [Hnil|Hex].
    + exists [], s. split; [reflexivity|]. split; assumption.
    + apply Exists_exists in Hex as (calls & Hin & Hne).
      apply list_elem_of_lookup in Hin as [i Hi].
      destruct calls as [|call calls]; [done|].
      apply (Hstep (Handoff i) {| output := output s;
                                  producers := <[i := calls]> (producers s);
                                  observed := observed s ++ [outputEnvelope call] |}).
      cbn [exec]. rewrite Hi, Hb. reflexivity.
  - apply (Hstep Receive {| output := {| capacity := capacity (output s); buffer := rest |};
                            producers := producers s;
                            observed := observed s ++ [envelope] |}).
    cbn [exec]. rewrite Hb. reflexivity.
Qed.

(** C10: for every capacity and every collection of producers, each making
    its calls of [Publish] in order (so in particular for more calls than
    the capacity), in whatever order the sends and receives get scheduled:
    the buffer never holds more than the capacity and a send finding it
    full is blocked, not dropped; the run takes at most two steps for each
    call, it can always be carried on to completion, and it can stop only
    when every call has completed and the buffer is drained; and then the
    consumer has observed the envelopes of all the calls, those of each
    producer in the order the producer published them. *)
Theorem Publish_backpressure_delivers_all (capacity : Z) (channel : Channel)
    (calls : list (list PublishCall)) (schedule : list Action) (s : System) :
  newBackgroundPublisher capacity = Some channel ->
  run schedule (start channel calls) = Some s ->
  (Z.of_nat (length (buffer (output s))) <= capacity)%Z
  /\ (forall i, Z.of_nat (length (buffer (output s))) = capacity -> exec (Send i) s = None)
  /\ length schedule + measure s <= 2 * length (concat calls)
  /\ (exists schedule' s', run schedule' s = Some s' /\ completed s')
  /\ (quiescent s <-> completed s)
  /\ (completed s ->
      Interleaving (map (map outputEnvelope) calls) (observed s)
      /\ observed s ≡ₚ concat (map (map outputEnvelope) calls)
      /\ length (observed s) = length (concat calls)).
Proof.
  unfold newBackgroundPublisher. destruct (capacity <? 0)%Z eqn:Hneg; [discriminate|].
  apply Z.ltb_ge in Hneg. intros [= <-] Hrun.
  destruct (run_capacity _ _ _ Hrun) as [Hcap Hlen]; [cbn; lia|].
  cbn [start output BackgroundPublisher.capacity] in Hcap. rewrite Hcap in Hlen.
  split; [lia|]. split; [|split; [|split; [|split]]].
  - intros i Hfull. unfold exec. rewrite Hcap.
    replace (length (buffer (output s)) <? Z.to_nat capacity)%nat with false
      by (symmetry; apply Nat.ltb_ge; lia).
    destruct (producers s !! i) as [[|? ?]|]; reflexivity.
  - apply run_measure in Hrun. unfold measure at 2 in Hrun. unfold pending in Hrun.
    cbn [start producers output buffer length] in Hrun. lia.
  - apply completion_reachable.
  - apply quiescent_completed.
  - intros Hdone. destruct (run_interleaving _ _ _ Hrun Hdone) as (l & Hobs & Hmerge).
    cbn [start observed output buffer producers app] in Hobs, Hmerge. subst l.
    split; [exact Hmerge|].
    pose proof (Interleaving_Permutation _ _ Hmerge) as Hperm.
    split; [exact Hperm|].
    rewrite (Permutation_length Hperm). apply length_concat_fmap.
Qed.

(** Three calls from two producers through a buffer of one. *)
Lemma Publish_backpressure_delivers_all_witness :
  run Fixtures.blockedSchedule (start Fixtures.channel Fixtures.calls) = None
  /\ run Fixtures.schedule (start Fixtures.channel Fixtures.calls) = Some Fixtures.drained
  /\ (Z.of_nat (length (buffer (output Fixtures.drained))) <= 1)%Z
  /\ completed Fixtures.drained
  /\ Interleaving (map (map outputEnvelope) Fixtures.calls) (observed Fixtures.drained).
Proof.
  pose proof (Publish_backpressure_delivers_all 1 Fixtures.channel Fixtures.calls
                Fixtures.schedule Fixtures.drained eq_refl eq_refl)
    as (Hlen & _ & _ & _ & _ & Hdone).
  assert (Hc : completed Fixtures.drained).
  { split; [repeat constructor|reflexivity]. }
  split; [reflexivity|]. split; [reflexivity|]. split; [exact Hlen|].
  split; [exact Hc|]. exact (proj1 (Hdone Hc)).
Defined.

End BackgroundPublisherFacts.

(** ** More about the MQTT trigger *)
Module TriggerFacts.

Import Mqtt MqttMore.

Section Initializing.

Variable url_Parse : string -> string + string.
Variable time_ParseDuration : string -> Z + string.
Variable mqttFactory_Create : ClientOptions -> Client + string.
Variable trigger : Trigger.

Let Init := @Initialize url_Parse time_ParseDuration mqttFactory_Create unit trigger None.
Let broker := MqttBroker (configuration trigger).
Let topic := SubscribeTopic (Binding (configuration trigger)).

(** How [Initialize] ends when it stops before dialling. *)
Let stop (err : string) : M (Trigger * (option Deferred * error)) :=
  ([EvLog Info "Initializing MQTT Trigger" []], Some (trigger, (None, Some err))).

(** [Initialize] up to the call of the factory, in one equation. *)
Lemma Initialize_unfold :
  Init =
    if (String.length topic =? 0)%nat then
      stop "missing SubscribeTopic for MQTT Trigger. Must be present in [Binding] section."
    else
      match url_Parse (Url broker) with
      | inr err => stop ("invalid MQTT Broker Url '" +:+ Url broker +:+ "': " +:+ err)
      | inl brokerUrl =>
          match connectTimeoutOf time_ParseDuration trigger with
          | inr err =>
              stop ("invalid MQTT ConnectTimeout '" +:+ ConnectTimeout broker +:+ "': " +:+ err)
          | inl timeout =>
              match mqttFactory_Create (optionsOf trigger brokerUrl timeout) with
              | inr err => stop ("unable to create secure MQTT Client: " +:+ err)
              | inl client => dial trigger brokerUrl client
              end
          end
      end.
Proof.
  unfold Init, Initialize, connectTimeoutOf, optionsOf, dial, stop, topic, broker. cbv zeta.
  change (bool_decide (is_Some (@None unit))) with false. cbv iota.
  destruct (String.length (SubscribeTopic _) =? 0)%nat; [reflexivity|].
  destruct (url_Parse _) as [brokerUrl|err]; [|reflexivity].
  destruct (0 <? _)%nat.
  - destruct (time_ParseDuration _) as [duration|err]; [|reflexivity].
    destruct (mqttFactory_Create _); reflexivity.
  - destruct (mqttFactory_Create _); reflexivity.
Qed.

(** X1: with no background channel, [Initialize] stops at the first check
    that fails, in the order subscribe topic, broker URL, connect timeout,
    client factory: it logs only its opening line, leaves the trigger as
    it was, and returns no deferred action and the error of that check. *)
Theorem Initialize_stops_before_dialling :
  (topic = "" ->
   Init = stop "missing SubscribeTopic for MQTT Trigger. Must be present in [Binding] section.")
  /\ (forall err,
        topic <> "" -> url_Parse (Url broker) = inr err ->
        Init = stop ("invalid MQTT Broker Url '" +:+ Url broker +:+ "': " +:+ err))
  /\ (forall brokerUrl err,
        topic <> "" -> url_Parse (Url broker) = inl brokerUrl ->
        connectTimeoutOf time_ParseDuration trigger = inr err ->
        Init = stop ("invalid MQTT ConnectTimeout '" +:+ ConnectTimeout broker +:+ "': " +:+ err))
  /\ (forall brokerUrl timeout err,
        topic <> "" -> url_Parse (Url broker) = inl brokerUrl ->
        connectTimeoutOf time_ParseDuration trigger = inl timeout ->
        mqttFactory_Create (optionsOf trigger brokerUrl timeout) = inr err ->
        Init = stop ("unable to create secure MQTT Client: " +:+ err)).
Proof.
  assert (Hne : topic <> "" -> (String.length topic =? 0)%nat = false).
  { destruct topic; [done|reflexivity]. }
  rewrite Initialize_unfold. repeat split.
  - intros ->. reflexivity.
  - intros err Ht Hu. rewrite (Hne Ht), Hu. reflexivity.
  - intros brokerUrl err Ht Hu Hc. rewrite (Hne Ht), Hu, Hc. reflexivity.
  - intros brokerUrl timeout err Ht Hu Hc Hf. rewrite (Hne Ht), Hu, Hc, Hf. reflexivity.
Qed.

Lemma connections_Connect (client : Client) :
  connections (events (Connect trigger client)) = 1.
Proof.
  unfold Connect, onConnectHandler.
  destruct (TokenError (connectToken client)); [reflexivity|].
  destruct (tokenFailed (subscribeToken _ _ _)); reflexivity.
Qed.

Lemma outcome_Connect (client : Client) :
  outcome (Connect trigger client) = Some (connectToken client).
Proof.
  unfold Connect, onConnectHandler.
  destruct (TokenError (connectToken client)); [reflexivity|].
  destruct (tokenFailed (subscribeToken _ _ _)); reflexivity.
Qed.

Lemma dial_result (brokerUrl : string) (client : Client) :
  outcome (dial trigger brokerUrl client) =
    Some (if tokenFailed (connectToken client)
          then (trigger,
                (None, Some ("could not connect to broker for MQTT trigger: "
                             +:+ default "" (TokenError (connectToken client)))))
          else ({| configuration := configuration trigger; mqttClient := Some client |},
                (Some DisconnectBroker, None)))
  /\ connections (events (dial trigger brokerUrl client)) = 1.
Proof.
  unfold dial.
  pose proof (outcome_Connect client) as Ho. pose proof (connections_Connect client) as Hc.
  destruct (Connect trigger client) as [evs [token|]]; [|discriminate].
  cbn in Ho. injection Ho as ->. cbn in Hc.
  cbn -[tokenFailed "+:+"].
  destruct (tokenFailed (connectToken client)); cbn -["+:+"].
  - split; [reflexivity|]. unfold connections in *.
    rewrite app_nil_r. exact Hc.
  - split; [reflexivity|]. unfold connections in *.
    rewrite List.filter_app, length_app. cbn. lia.
Qed.

(** X2: without a background channel [Initialize] always returns, with
    either the deferred action or an error and never both or neither; it
    dials the broker at most once; on an error the trigger is as before,
    and on success it holds the client, whose connection was dialled once
    and did not fail; the configuration is never changed. *)
Theorem Initialize_outcome_shape :
  exists after deferred err,
    outcome Init = Some (after, (deferred, err))
    /\ configuration after = configuration trigger
    /\ (err = None <-> deferred = Some DisconnectBroker)
    /\ (err <> None -> after = trigger /\ deferred = None)
    /\ (err = None ->
        exists client, mqttClient after = Some client
                       /\ tokenFailed (connectToken client) = false
                       /\ connections (events Init) = 1)
    /\ connections (events Init) <= 1.
Proof.
  assert (Hstop : forall e, exists after deferred err,
    outcome (stop e) = Some (after, (deferred, err))
    /\ configuration after = configuration trigger
    /\ (err = None <-> deferred = Some DisconnectBroker)
    /\ (err <> None -> after = trigger /\ deferred = None)
    /\ (err = None ->
        exists client, mqttClient after = Some client
                       /\ tokenFailed (connectToken client) = false
                       /\ connections (events (stop e)) = 1)
    /\ connections (events (stop e)) <= 1).
  { intros e. exists trigger, None, (Some e). cbn.
    repeat split; try discriminate; try done; unfold connections; cbn; lia. }
  rewrite Initialize_unfold.
  destruct (String.length topic =? 0)%nat; [apply Hstop|].
  destruct (url_Parse _) as [brokerUrl|e]; [|apply Hstop].
  destruct (connectTimeoutOf _ _) as [timeout|e]; [|apply Hstop].
  destruct (mqttFactory_Create _) as [client|e]; [|apply Hstop].
  destruct (dial_result brokerUrl client) as [Ho Hc]. rewrite Hc.
  destruct (tokenFailed (connectToken client)) eqn:Hf.
  - eexists _, _, _. split; [exact Ho|]. repeat split; try discriminate; try done; lia.
  - eexists _, _, _. split; [exact Ho|]. cbn. repeat split; try done; try lia.
    intros _. exists client. auto.
Qed.

(** X3: the factory is asked for a client with the options of the broker
    configuration (auto-reconnect, client id, keep-alive), the parsed URL
    as the only server and a connect timeout only when one is configured;
    with the client it makes [Initialize] dials once, and the token of that
    connection alone decides between the connection error and success. *)
Theorem Initialize_dials_with_configured_options (brokerUrl : string) (timeout : option Z)
    (client : Client) :
  topic <> "" ->
  url_Parse (Url broker) = inl brokerUrl ->
  connectTimeoutOf time_ParseDuration trigger = inl timeout ->
  mqttFactory_Create (optionsOf trigger brokerUrl timeout) = inl client ->
  outcome Init =
    Some (if tokenFailed (connectToken client)
          then (trigger,
                (None, Some ("could not connect to broker for MQTT trigger: "
                             +:+ default "" (TokenError (connectToken client)))))
          else ({| configuration := configuration trigger; mqttClient := Some client |},
                (Some DisconnectBroker, None)))
  /\ connections (events Init) = 1.
Proof.
  intros Ht Hu Hc Hf. rewrite Initialize_unfold.
  replace (String.length topic =? 0)%nat with false
    by (destruct topic; [done|reflexivity]).
  rewrite Hu, Hc, Hf. apply dial_result.
Qed.

End Initializing.

Section Handling.

Variable uuid_New : string.
Variable trigger : Trigger.
Variable client : Client.

Lemma response_OutputData (after after' : Context) (err : error) :
  OutputData after = OutputData after' ->
  response uuid_New trigger client after err = response uuid_New trigger client after' err.
Proof. unfold response. intros ->. reflexivity. Qed.

(** X4: the handler takes nothing from the runtime but its error and the
    output data of the context: two pipelines that agree on those (and may
    differ in the retry data they set) make the handler log and publish
    the same and end the same.  Retry data set by the pipeline is read by
    nobody. *)
Theorem messageHandler_drops_retry_data
    (ProcessMessage ProcessMessage' : Context -> MessageEnvelope -> Context * error)
    (payload : bytes) :
  (forall ctx envelope,
      snd (ProcessMessage ctx envelope) = snd (ProcessMessage' ctx envelope)
      /\ OutputData (fst (ProcessMessage ctx envelope))
         = OutputData (fst (ProcessMessage' ctx envelope))) ->
  let h := messageHandler uuid_New ProcessMessage trigger client payload in
  let h' := messageHandler uuid_New ProcessMessage' trigger client payload in
  besidesRuntime (events h) = besidesRuntime (events h') /\ outcome h = outcome h'.
Proof.
  intros Hsame. cbv zeta.
  rewrite !MqttFacts.messageHandler_events, !MqttFacts.messageHandler_outcome.
  split; [|reflexivity].
  destruct payload as [|b rest]; [reflexivity|]. cbv zeta.
  destruct (Hsame (contextOf uuid_New trigger) (envelopeOf uuid_New b rest)) as [He Ho].
  unfold besidesRuntime. cbn [List.filter isProcessMessage negb].
  rewrite He, (response_OutputData _ _ _ Ho). reflexivity.
Qed.

End Handling.

Lemma Initialize_stops_before_dialling_witness :
  Initialize Fixtures.url_Parse Fixtures.time_ParseDuration
             (fun _ => inl Fixtures.goodClient)
             (NewTrigger Examples.noTopic) (@None unit)
  = ([EvLog Info "Initializing MQTT Trigger" []],
     Some (NewTrigger Examples.noTopic,
           (None, Some "missing SubscribeTopic for MQTT Trigger. Must be present in [Binding] section."))).
Proof.
  refine (proj1 (Initialize_stops_before_dialling Fixtures.url_Parse
                   Fixtures.time_ParseDuration (fun _ => inl Fixtures.goodClient)
                   (NewTrigger Examples.noTopic)) _).
  reflexivity.
Defined.

Lemma Initialize_dials_with_configured_options_witness :
  outcome (Initialize Fixtures.url_Parse Fixtures.time_ParseDuration
                      Examples.timedFactory (NewTrigger Examples.timed) (@None unit))
  = Some ({| configuration := Examples.timed; mqttClient := Some Fixtures.goodClient |},
          (Some DisconnectBroker, None)).
Proof.
  refine (proj1 (Initialize_dials_with_configured_options Fixtures.url_Parse
                   Fixtures.time_ParseDuration Examples.timedFactory
                   (NewTrigger Examples.timed) "tcp://localhost:1883" (Some 5000000000%Z)
                   Fixtures.goodClient _ eq_refl eq_refl eq_refl)).
  discriminate.
Defined.

Lemma messageHandler_drops_retry_data_witness :
  besidesRuntime (events (messageHandler Fixtures.uuid_New Fixtures.echoRuntime
                            Fixtures.trigger Fixtures.goodClient Fixtures.jsonPayload))
  = besidesRuntime (events (messageHandler Fixtures.uuid_New Examples.retryingRuntime
                              Fixtures.trigger Fixtures.goodClient Fixtures.jsonPayload)).
Proof.
  refine (proj1 (messageHandler_drops_retry_data Fixtures.uuid_New Fixtures.trigger
                   Fixtures.goodClient Fixtures.echoRuntime Examples.retryingRuntime
                   Fixtures.jsonPayload _)).
  intros ctx envelope. split; reflexivity.
Defined.

End TriggerFacts.

(** ** More about the builders of appsdk/configurable.go *)
Module BuildersFacts.

Import Transforms Configurable Builders BuildersExpected.

Lemma optional_refused {A : Type} (parse : string -> A + string) (absent : A)
    (parameters : gmap string string) (key : string) :
  (exists bad, optional parse absent (parameters !! key) = inr bad)
  <-> refused parse parameters key.
Proof.
  unfold optional, refused. destruct (parameters !! key) as [value|].
  - destruct (parse value) as [a|err] eqn:E.
    + split; [intros [? ?]; discriminate|].
      intros (v & e & [= <-] & He). congruence.
    + split; eauto.
  - split; [intros [? ?]; discriminate|]. intros (v & e & ? & _). discriminate.
Qed.

Lemma optional_inl_or_refused {A : Type} (parse : string -> A + string) (absent : A)
    (parameters : gmap string string) (key : string) :
  (exists a, optional parse absent (parameters !! key) = inl a)
  \/ refused parse parameters key.
Proof.
  destruct (optional parse absent (parameters !! key)) as [a|bad] eqn:E; [eauto|].
  right. apply (optional_refused parse absent). eauto.
Qed.

Section HTTP.

Variable strings_TrimSpace : string -> string.

(** How a builder for HTTP ends: with nil after one error line, or with
    the method value of the sender it has set up. *)
Lemma HTTPPost_cases (parameters : gmap string string) :
  (outcome (HTTPPost strings_TrimSpace parameters) = Some None
   /\ outcome (HTTPPut strings_TrimSpace parameters) = Some None
   /\ (exists msg args, events (HTTPPost strings_TrimSpace parameters) = [EvLog Error msg args])
   /\ (parameters !! Url = None \/ parameters !! MimeType = None
       \/ refused Strconv.ParseBool parameters PersistOnError))
  \/ (exists url mimeType persistOnError,
        parameters !! Url = Some url /\ parameters !! MimeType = Some mimeType
        /\ persistOf parameters persistOnError
        /\ let transform :=
             if nonEmpty (index parameters SecretHeaderName1)
                && nonEmpty (index parameters SecretPath)
             then NewHTTPSenderWithSecretHeader
                    (strings_TrimSpace url) (strings_TrimSpace mimeType) persistOnError
                    (index parameters SecretHeaderName1) (index parameters SecretHeaderName2)
                    (index parameters SecretPath)
             else NewHTTPSender (strings_TrimSpace url) (strings_TrimSpace mimeType)
                                persistOnError in
           outcome (HTTPPost strings_TrimSpace parameters) = Some (Some (HTTPPostFn transform))
           /\ outcome (HTTPPut strings_TrimSpace parameters) = Some (Some (HTTPPutFn transform))).
Proof.
  unfold HTTPPost, HTTPPut, persistOf, refused.
  destruct (parameters !! Url) as [url|]; [|left; cbn; eauto 10].
  destruct (parameters !! MimeType) as [mimeType|]; [|left; cbn; eauto 10].
  destruct (parameters !! PersistOnError) as [value|].
  - destruct (Strconv.ParseBool value) as [b|err] eqn:E.
    + right. exists url, mimeType, b. cbn. repeat split; try reflexivity; exact E.
    + left. cbn. repeat split; eauto 10.
  - right. exists url, mimeType, false. cbn. repeat split; reflexivity.
Qed.


(** X6: [HTTPPut] mirrors [HTTPPost]: for the same parameters the one
    returns nil exactly when the other does, and otherwise they return the
    PUT and the POST method of one and the same sender. *)
Theorem HTTPPut_mirrors_HTTPPost (parameters : gmap string string) :
  (outcome (HTTPPost strings_TrimSpace parameters) = Some None
   <-> outcome (HTTPPut strings_TrimSpace parameters) = Some None)
  /\ (forall transform,
        outcome (HTTPPost strings_TrimSpace parameters) = Some (Some (HTTPPostFn transform))
        <-> outcome (HTTPPut strings_TrimSpace parameters) = Some (Some (HTTPPutFn transform)))
  /\ (forall f, outcome (HTTPPost strings_TrimSpace parameters) = Some (Some f) ->
                exists transform, f = HTTPPostFn transform)
  /\ (forall f, outcome (HTTPPut strings_TrimSpace parameters) = Some (Some f) ->
                exists transform, f = HTTPPutFn transform).
Proof.
  destruct (HTTPPost_cases parameters)
    as [(Hpost & Hput & _)|(url & mimeType & persist & _ & _ & _ & Hpost & Hput)];
    rewrite Hpost, Hput.
  - repeat split; try done.
  - repeat split; try done; intros; simplify_eq; eauto.
Qed.

(** X7: with a secret header name and a secret path both given (and url,
    mimetype and persistonerror in order) the builders set up a sender that
    carries both, the second header name as well; url and mime type are
    trimmed, the secret settings are taken as written. *)
Theorem HTTP_builders_with_secret_header (parameters : gmap string string)
    (url mimeType : string) (persistOnError : bool) :
  parameters !! Url = Some url ->
  parameters !! MimeType = Some mimeType ->
  persistOf parameters persistOnError ->
  index parameters SecretHeaderName1 <> "" ->
  index parameters SecretPath <> "" ->
  let transform :=
    {| URL := strings_TrimSpace url; Transforms.MimeType := strings_TrimSpace mimeType;
       Transforms.PersistOnError := persistOnError;
       SecretHeaderName := index parameters SecretHeaderName1;
       Transforms.SecretHeaderName2 := index parameters SecretHeaderName2;
       Transforms.SecretPath := index parameters SecretPath |} in
  outcome (HTTPPost strings_TrimSpace parameters) = Some (Some (HTTPPostFn transform))
  /\ outcome (HTTPPut strings_TrimSpace parameters) = Some (Some (HTTPPutFn transform)).
Proof.
  intros Hu Hm Hp H1 H2. cbv zeta.
  destruct (HTTPPost_cases parameters)
    as [(_ & _ & _ & Hrej)|(url' & mimeType' & persist' & Hu' & Hm' & Hp' & Hpost & Hput)].
  - exfalso. destruct Hrej as [H|[H|(v & e & Hv & He)]]; [congruence|congruence|].
    unfold persistOf in Hp. rewrite Hv in Hp. congruence.
  - assert (persist' = persistOnError) as ->.
    { unfold persistOf in *. destruct (parameters !! PersistOnError); congruence. }
    assert (url' = url) as -> by congruence. assert (mimeType' = mimeType) as -> by congruence.
    replace (nonEmpty (index parameters SecretHeaderName1)) with true in *
      by (unfold nonEmpty; destruct (index parameters SecretHeaderName1); [done|reflexivity]).
    replace (nonEmpty (index parameters SecretPath)) with true in *
      by (unfold nonEmpty; destruct (index parameters SecretPath); [done|reflexivity]).
    split; assumption.
Qed.




End HTTP.

Lemma byte_of_int_mod (n : Z) :
  StrconvFull.byte_of_int n = (n mod 256)%Z
  /\ (0 <= StrconvFull.byte_of_int n < 256)%Z.
Proof.
  unfold StrconvFull.byte_of_int. change 255%Z with (Z.ones 8).
  rewrite Z.land_ones by lia. change (2 ^ 8)%Z with 256%Z.
  split; [reflexivity|]. apply Z.mod_pos_bound. lia.
Qed.

Section MQTT.

Variable Addressable : Type.
Variable printAddressable : Addressable -> string.

Let Send := MQTTSend Addressable printAddressable.
Let SecretSend := MQTTSecretSend Addressable.

Lemma pairOf_spec (parameters : gmap string string) :
  (pairOf parameters = None <-> index parameters Cert = "" \/ index parameters Key = "")
  /\ (forall keyCert, pairOf parameters = Some keyCert ->
        Stages.CertFile keyCert = index parameters Cert
        /\ Stages.KeyFile keyCert = index parameters Key).
Proof.
  unfold pairOf.
  destruct (index parameters Cert) as [|c cert]; [|destruct (index parameters Key) as [|k key]];
    cbn.
  - split; [split; auto|intros ? H; discriminate].
  - split; [split; auto|intros ? H; discriminate].
  - split; [split; [discriminate|intros [H|H]; discriminate]|].
    intros keyCert [= <-]. auto.
Qed.

Lemma MQTTSend_cases (parameters : gmap string string) (addr : Addressable) :
  (outcome (Send parameters addr) = Some None
   /\ (refused Strconv.Atoi parameters Qos
       \/ refused Strconv.ParseBool parameters Retain
       \/ refused Strconv.ParseBool parameters AutoReconnect
       \/ refused Strconv.ParseBool parameters PersistOnError
       \/ exists bad, skipVerifyOf parameters = inr bad))
  \/ (exists qos retain autoReconnect persistOnError skip,
        optional Strconv.Atoi 0%Z (parameters !! Qos) = inl qos
        /\ optional Strconv.ParseBool false (parameters !! Retain) = inl retain
        /\ optional Strconv.ParseBool false (parameters !! AutoReconnect) = inl autoReconnect
        /\ optional Strconv.ParseBool false (parameters !! PersistOnError) = inl persistOnError
        /\ skipVerifyOf parameters = inl skip
        /\ outcome (Send parameters addr) =
             Some (Some (Stages.MQTTSendFn addr (pairOf parameters)
                           {| Stages.MqttConfig.Qos := StrconvFull.byte_of_int qos;
                              Stages.MqttConfig.Retain := retain;
                              Stages.MqttConfig.AutoReconnect := autoReconnect;
                              Stages.MqttConfig.SkipCertVerify := skip |}
                           persistOnError))).
Proof.
  unfold Send, MQTTSend, skipVerifyOf, pairOf.
  destruct (optional_inl_or_refused Strconv.Atoi 0%Z parameters Qos) as [[qos Hq]|Hq].
  2: { left. apply (optional_refused Strconv.Atoi 0%Z) in Hq as Hq'. destruct Hq' as [bad ->].
       cbn. auto. }
  rewrite Hq.
  destruct (optional_inl_or_refused Strconv.ParseBool false parameters Retain) as [[retain Hr]|Hr].
  2: { left. apply (optional_refused Strconv.ParseBool false) in Hr as Hr'.
       destruct Hr' as [bad ->]. cbn. auto. }
  rewrite Hr.
  destruct (optional_inl_or_refused Strconv.ParseBool false parameters AutoReconnect)
    as [[autoReconnect Ha]|Ha].
  2: { left. apply (optional_refused Strconv.ParseBool false) in Ha as Ha'.
       destruct Ha' as [bad ->]. cbn. auto. }
  rewrite Ha.
  destruct (optional_inl_or_refused Strconv.ParseBool false parameters PersistOnError)
    as [[persist Hp]|Hp].
  2: { left. apply (optional_refused Strconv.ParseBool false) in Hp as Hp'.
       destruct Hp' as [[value err] ->]. cbn. auto 10. }
  rewrite Hp.
  destruct (if nonEmpty (index parameters SkipVerify) then _ else _) as [skip|[value err]] eqn:Hs.
  - right. exists qos, retain, autoReconnect, persist, skip. cbn. auto 10.
  - left. cbn. eauto 10.
Qed.

(** X9: [MQTTSend] does not check the range of qos: every integer that
    [Atoi] reads is accepted and cut down to its low eight bits, so 256
    counts as 0 and -1 as 255; and it passes a key pair on exactly when
    cert and key are both given and not empty. *)
Theorem MQTTSend_wraps_qos (parameters : gmap string string) (addr : Addressable)
    (f : Stages.Function Addressable) :
  outcome (Send parameters addr) = Some (Some f) ->
  exists qos pair mqttConfig persistOnError,
    f = Stages.MQTTSendFn addr pair mqttConfig persistOnError
    /\ optional Strconv.Atoi 0%Z (parameters !! Qos) = inl qos
    /\ Stages.MqttConfig.Qos mqttConfig = (qos mod 256)%Z
    /\ (0 <= Stages.MqttConfig.Qos mqttConfig < 256)%Z
    /\ (pair = None <-> index parameters Cert = "" \/ index parameters Key = "")
    /\ (forall keyCert, pair = Some keyCert ->
          Stages.CertFile keyCert = index parameters Cert
          /\ Stages.KeyFile keyCert = index parameters Key).
Proof.
  destruct (MQTTSend_cases parameters addr)
    as [[Hnil _]|(qos & retain & auto & persist & skip & Hq & _ & _ & _ & _ & Hout)].
  { rewrite Hnil. discriminate. }
  rewrite Hout. intros [= <-]. eexists qos, _, _, _. split; [reflexivity|].
  split; [exact Hq|]. cbn [Stages.MqttConfig.Qos].
  destruct (byte_of_int_mod qos) as [Hmod Hrange]. split; [exact Hmod|]. split; [exact Hrange|].
  apply pairOf_spec.
Qed.

(** X10: [MQTTSend] always returns, and it returns nil exactly when one of
    qos, retain, autoreconnect and persistonerror is present and does not
    parse, or skipverify is not empty and no boolean; every parameter is
    optional. *)
Theorem MQTTSend_nil_iff (parameters : gmap string string) (addr : Addressable) :
  (exists result, outcome (Send parameters addr) = Some result)
  /\ (outcome (Send parameters addr) = Some None <->
      refused Strconv.Atoi parameters Qos
      \/ refused Strconv.ParseBool parameters Retain
      \/ refused Strconv.ParseBool parameters AutoReconnect
      \/ refused Strconv.ParseBool parameters PersistOnError
      \/ (index parameters SkipVerify <> ""
          /\ exists err, Strconv.ParseBool (index parameters SkipVerify) = inr err))
  /\ outcome (Send ∅ addr)
     = Some (Some (Stages.MQTTSendFn addr None
                     {| Stages.MqttConfig.Qos := 0; Stages.MqttConfig.Retain := false;
                        Stages.MqttConfig.AutoReconnect := false;
                        Stages.MqttConfig.SkipCertVerify := false |} false)).
Proof.
  split; [|split; [|reflexivity]].
  - destruct (MQTTSend_cases parameters addr) as [[H _]|(?&?&?&?&?&_&_&_&_&_&H)]; eauto.
  - assert (Hskip : (exists bad, skipVerifyOf parameters = inr bad) <->
                    index parameters SkipVerify <> ""
                    /\ exists err, Strconv.ParseBool (index parameters SkipVerify) = inr err).
    { unfold skipVerifyOf, nonEmpty, optional.
      destruct (index parameters SkipVerify) as [|c text] eqn:E; cbn.
      - split; [intros [? ?]; discriminate|intros [? _]; done].
      - destruct (Strconv.ParseBool (String c text)) as [b|err].
        + split; [intros [? ?]; discriminate|intros [_ [? ?]]; discriminate].
        + split; eauto. }
    rewrite <- Hskip.
    destruct (MQTTSend_cases parameters addr)
      as [[Hnil Hwhy]|(qos & retain & auto & persist & skip & Hq & Hr & Ha & Hp & Hs & Hout)].
    + rewrite Hnil. tauto.
    + rewrite Hout. split; [discriminate|]. intros H. exfalso.
      rewrite <- (optional_refused Strconv.Atoi 0%Z) in H.
      rewrite <- !(optional_refused Strconv.ParseBool false) in H.
      rewrite Hq, Hr, Ha, Hp, Hs in H.
      destruct H as [[? ?]|[[? ?]|[[? ?]|[[? ?]|[? ?]]]]]; discriminate.
Qed.

(** X11: the two MQTT builders treat an empty skipverify differently:
    [MQTTSend] reads it as absent, [MQTTSecretSend] hands it to
    [ParseBool], which refuses it, so that it returns nil whatever the
    other parameters are. *)
Theorem empty_skipverify_splits_the_MQTT_builders (parameters : gmap string string)
    (addr : Addressable) :
  parameters !! SkipVerify = Some "" ->
  Send parameters addr = Send (delete SkipVerify parameters) addr
  /\ outcome (SecretSend parameters) = Some None.
Proof.
  intros Hskip. split.
  - unfold Send, MQTTSend, index. rewrite !lookup_delete_ne by done.
    rewrite lookup_delete_eq, Hskip. reflexivity.
  - unfold SecretSend, MQTTSecretSend. rewrite Hskip.
    destruct (parameters !! BrokerAddress); [|reflexivity].
    destruct (parameters !! Topic); [|reflexivity].
    destruct (parameters !! SecretPath); [|reflexivity].
    destruct (parameters !! AuthMode); [|reflexivity].
    destruct (parameters !! ClientID); [|reflexivity].
    destruct (optional Strconv.Atoi _ _) as [qos|bad]; [|reflexivity].
    destruct (optional Strconv.ParseBool _ (parameters !! Retain)) as [retain|bad];
      [|reflexivity].
    destruct (optional Strconv.ParseBool _ (parameters !! AutoReconnect)) as [auto|bad];
      [|reflexivity].
    reflexivity.
Qed.

(** X12: [MQTTSecretSend] always returns; it returns nil exactly when one
    of brokeraddress, topic, secretpath, authmode and clientid is missing
    or one of qos, retain, autoreconnect, skipverify and persistonerror is
    present and does not parse; otherwise its configuration holds the five
    required values as written and the low eight bits of qos. *)
Theorem MQTTSecretSend_nil_iff (parameters : gmap string string) :
  (outcome (SecretSend parameters) = Some None <->
   parameters !! BrokerAddress = None \/ parameters !! Topic = None
   \/ parameters !! SecretPath = None \/ parameters !! AuthMode = None
   \/ parameters !! ClientID = None
   \/ refused Strconv.Atoi parameters Qos
   \/ refused Strconv.ParseBool parameters Retain
   \/ refused Strconv.ParseBool parameters AutoReconnect
   \/ refused Strconv.ParseBool parameters SkipVerify
   \/ refused Strconv.ParseBool parameters PersistOnError)
  /\ (outcome (SecretSend parameters) <> Some None ->
      exists mqttConfig persistOnError qos,
        outcome (SecretSend parameters)
          = Some (Some (Stages.MQTTSecretSendFn mqttConfig persistOnError))
        /\ parameters !! BrokerAddress = Some (Stages.MQTTSecretConfig.BrokerAddress mqttConfig)
        /\ parameters !! Topic = Some (Stages.MQTTSecretConfig.Topic mqttConfig)
        /\ parameters !! SecretPath = Some (Stages.MQTTSecretConfig.SecretPath mqttConfig)
        /\ parameters !! AuthMode = Some (Stages.MQTTSecretConfig.AuthMode mqttConfig)
        /\ parameters !! ClientID = Some (Stages.MQTTSecretConfig.ClientId mqttConfig)
        /\ optional Strconv.Atoi 0%Z (parameters !! Qos) = inl qos
        /\ Stages.MQTTSecretConfig.QoS mqttConfig = (qos mod 256)%Z).
Proof.
  rewrite <- (optional_refused Strconv.Atoi 0%Z parameters Qos).
  rewrite <- (optional_refused Strconv.ParseBool false parameters Retain).
  rewrite <- (optional_refused Strconv.ParseBool false parameters AutoReconnect).
  rewrite <- (optional_refused Strconv.ParseBool false parameters SkipVerify).
  rewrite <- (optional_refused Strconv.ParseBool false parameters PersistOnError).
  unfold SecretSend, MQTTSecretSend.
  destruct (parameters !! BrokerAddress) as [brokerAddress|] eqn:E1;
    [|split; [split; [intros _; tauto|reflexivity]|intros H; destruct H; reflexivity]].
  destruct (parameters !! Topic) as [topic|] eqn:E2;
    [|split; [split; [intros _; tauto|reflexivity]|intros H; destruct H; reflexivity]].
  destruct (parameters !! SecretPath) as [secretPath|] eqn:E3;
    [|split; [split; [intros _; tauto|reflexivity]|intros H; destruct H; reflexivity]].
  destruct (parameters !! AuthMode) as [authMode|] eqn:E4;
    [|split; [split; [intros _; tauto|reflexivity]|intros H; destruct H; reflexivity]].
  destruct (parameters !! ClientID) as [clientID|] eqn:E5;
    [|split; [split; [intros _; tauto|reflexivity]|intros H; destruct H; reflexivity]].
  destruct (optional Strconv.Atoi _ _) as [qos|bad] eqn:E6;
    [|split; [split; [intros _; eauto 12|reflexivity]|intros H; destruct H; reflexivity]].
  destruct (optional Strconv.ParseBool _ (parameters !! Retain)) as [retain|bad] eqn:E7;
    [|split; [split; [intros _; eauto 12|reflexivity]|intros H; destruct H; reflexivity]].
  destruct (optional Strconv.ParseBool _ (parameters !! AutoReconnect)) as [auto|bad] eqn:E8;
    [|split; [split; [intros _; eauto 12|reflexivity]|intros H; destruct H; reflexivity]].
  destruct (optional Strconv.ParseBool _ (parameters !! SkipVerify)) as [skip|[v e]] eqn:E9;
    [|split; [split; [intros _; eauto 14|reflexivity]|intros H; destruct H; reflexivity]].
  destruct (optional Strconv.ParseBool _ (parameters !! PersistOnError)) as [persist|[v e]] eqn:E10;
    [|split; [split; [intros _; eauto 14|reflexivity]|intros H; destruct H; reflexivity]].
  split.
  - split; [discriminate|].
    intros [H|[H|[H|[H|[H|[[? H]|[[? H]|[[? H]|[[? H]|[? H]]]]]]]]]]; discriminate.
  - intros _. eexists _, persist, qos. split; [reflexivity|]. cbn.
    repeat split; try reflexivity. apply byte_of_int_mod.
Qed.

End MQTT.

Section Numbers.

Import Strconv.

Lemma digit_range (ch : ascii) (d : Z) : digit ch = Some d -> (0 <= d <= 9)%Z.
Proof.
  unfold digit. destruct (_ && _) eqn:E; [|discriminate]. intros [= <-].
  apply andb_true_iff in E as [E1 E2]. apply Z.leb_le in E1, E2. lia.
Qed.

Lemma digits_le (s : string) (n m : Z) : (0 <= n)%Z -> digits s n = Some m -> (n <= m)%Z.
Proof.
  revert n. induction s as [|ch rest IH]; intros n Hn; cbn.
  - intros [= <-]. lia.
  - destruct (digit ch) as [d|] eqn:Hd; [|discriminate].
    apply digit_range in Hd. intros H. apply IH in H; lia.
Qed.

(** The loop of [ParseUint] against the plain reading of the digits. *)
Lemma ParseUintFrom_digits (s : string) (n : Z) :
  (0 <= n <= StrconvFull.maxUint64)%Z ->
  match StrconvFull.ParseUintFrom s n with
  | inl m => digits s n = Some m /\ (0 <= m <= StrconvFull.maxUint64)%Z
  | inr false => digits s n = None
  | inr true => forall m, digits s n = Some m -> (StrconvFull.maxUint64 < m)%Z
  end.
Proof.
  revert n. induction s as [|ch rest IH]; intros n Hn; cbn.
  - auto.
  - destruct (digit ch) as [d|] eqn:Hd; [|reflexivity].
    apply digit_range in Hd.
    destruct (Z.leb_spec StrconvFull.cutoff n) as [Hc|Hc].
    + intros m Hm. apply digits_le in Hm; [|lia].
      unfold StrconvFull.cutoff, StrconvFull.maxUint64 in *.
      change (2 ^ 64 - 1)%Z with 18446744073709551615%Z in *.
      change (18446744073709551615 / 10 + 1)%Z with 1844674407370955162%Z in *. lia.
    + destruct (Z.ltb_spec StrconvFull.maxUint64 (n * 10 + d)) as [Ho|Ho].
      * intros m Hm. apply digits_le in Hm; lia.
      * apply IH. lia.
Qed.

(** Where the simple reading of [Atoi] gives a number, the full one gives
    the same number and no error. *)
Lemma Atoi_agree (s : string) (v : Z) :
  Strconv.Atoi s = inl v -> StrconvFull.Atoi s = (v, None).
Proof.
  unfold Strconv.Atoi, StrconvFull.Atoi.
  match goal with
  | |- context [let '(neg, body) := ?split in _] => destruct split as [neg body]
  end.
  destruct body as [|ch rest]; [discriminate|].
  pose proof (ParseUintFrom_digits (String ch rest) 0) as Hp.
  destruct (digits (String ch rest) 0) as [n|] eqn:Hn; [|discriminate].
  pose proof (digits_le _ _ _ (Z.le_refl 0) Hn) as Hpos.
  destruct (_ && _) eqn:Hrange; [|discriminate]. intros [= <-].
  apply andb_true_iff in Hrange as [Hlo Hhi]. apply Z.leb_le in Hlo, Hhi.
  change (2 ^ 63)%Z with 9223372036854775808%Z in *.
  assert (Hmax : (0 <= 0 <= StrconvFull.maxUint64)%Z) by (unfold StrconvFull.maxUint64; lia).
  specialize (Hp Hmax).
  destruct (StrconvFull.ParseUintFrom (String ch rest) 0) as [m|[|]].
  - destruct Hp as [[= <-] _]. destruct neg; cbn [negb andb].
    + destruct (Z.ltb_spec 9223372036854775808 n); [lia|reflexivity].
    + destruct (Z.leb_spec 9223372036854775808 n); [lia|reflexivity].
  - specialize (Hp n eq_refl). unfold StrconvFull.maxUint64 in Hp.
    change (2 ^ 64 - 1)%Z with 18446744073709551615%Z in Hp. destruct neg; lia.
  - discriminate.
Qed.

(** A refused number comes with [0] or with the nearest bound of [int]. *)
Lemma Atoi_error_value (s : string) (err : string) :
  snd (StrconvFull.Atoi s) = Some err ->
  fst (StrconvFull.Atoi s) = 0%Z
  \/ fst (StrconvFull.Atoi s) = (2 ^ 63 - 1)%Z
  \/ fst (StrconvFull.Atoi s) = (- 2 ^ 63)%Z.
Proof.
  unfold StrconvFull.Atoi.
  match goal with
  | |- context [let '(neg, body) := ?split in _] => destruct split as [neg body]
  end.
  destruct body as [|ch rest]; [auto|].
  destruct (StrconvFull.ParseUintFrom _ _) as [un|[|]]; [|destruct neg; auto|auto].
  destruct (negb neg && _); [auto|]. destruct (neg && _); [auto|]. discriminate.
Qed.

End Numbers.

Section Batch.

Variable NewBatchByTimeAndCount : string -> Z -> option BatchConfig * error.

(** X13: once timeinterval and batchthreshold are both present,
    [BatchByTimeAndCount] never returns nil: a threshold that [Atoi]
    refuses is logged and the builder carries on with the number that came
    with the error ([0], or a bound of [int]), and an error of the
    constructor is logged as well; the function returned is the method
    value of whatever the constructor gave, nil included. *)
Theorem BatchByTimeAndCount_carries_on (parameters : gmap string string)
    (timeInterval batchThreshold : string) :
  parameters !! TimeInterval = Some timeInterval ->
  parameters !! BatchThreshold = Some batchThreshold ->
  let build := BatchByTimeAndCount NewBatchByTimeAndCount parameters in
  let thresholdValue := fst (StrconvFull.Atoi batchThreshold) in
  outcome build
    = Some (Some (BatchFn (fst (NewBatchByTimeAndCount timeInterval thresholdValue))))
  /\ (forall v, Strconv.Atoi batchThreshold = inl v -> thresholdValue = v)
  /\ (forall err, snd (StrconvFull.Atoi batchThreshold) = Some err ->
        (thresholdValue = 0 \/ thresholdValue = 2 ^ 63 - 1 \/ thresholdValue = - 2 ^ 63)%Z
        /\ EvLog Error ("Could not parse '" +:+ batchThreshold +:+ "' to an int for '"
                        +:+ BatchThreshold +:+ "' parameter") ["error"; err]
           ∈ events build).
Proof.
  intros Ht Hb. cbv zeta. unfold BatchByTimeAndCount. rewrite Ht, Hb.
  split; [|split].
  - destruct (StrconvFull.Atoi batchThreshold) as [v [e|]]; cbn [fst];
      destruct (NewBatchByTimeAndCount timeInterval v) as [transform [e'|]]; reflexivity.
  - intros v Hv. rewrite (Atoi_agree _ _ Hv). reflexivity.
  - intros err He. split; [eapply Atoi_error_value; exact He|].
    destruct (StrconvFull.Atoi batchThreshold) as [v [e|]]; cbn in He; [|discriminate].
    injection He as ->. cbn [fst].
    destruct (NewBatchByTimeAndCount timeInterval v) as [transform [e'|]];
      apply list_elem_of_In; cbn; auto.
Qed.

End Batch.

Section Tags.

Variable fieldsComma : string -> list string.
Variable fieldsColon : string -> list string.
Variable util_DeleteEmptyAndTrim : list string -> list string.
Variable Addressable : Type.
Variable printTags : gmap string string -> string.

Let Tag := keyValueOf fieldsColon util_DeleteEmptyAndTrim.
Let Loop := addTagsLoop fieldsColon util_DeleteEmptyAndTrim.
Let Add := AddTags fieldsComma fieldsColon util_DeleteEmptyAndTrim Addressable printTags.

(** Writing the pairs into a map one after the other. *)
Lemma foldl_insert (pairs : list (string * string)) (tags : gmap string string) :
  foldl (fun m kv => <[kv.1 := kv.2]> m) tags pairs
  = list_to_map (reverse pairs) ∪ tags.
Proof.
  revert tags. induction pairs as [|[k v] pairs IH]; intros tags.
  - cbn. rewrite (left_id_L ∅ (∪)). reflexivity.
  - cbn [foldl fst snd]. rewrite IH, reverse_cons, list_to_map_app.
    cbn [list_to_map foldr uncurry fst snd]. rewrite <- (assoc_L (∪)). f_equal.
    rewrite insert_empty, <- insert_union_singleton_l. reflexivity.
Qed.

Lemma addTagsLoop_step (tagsSpec tag : string) (rest : list string)
    (tags : gmap string string) :
  outcome (Loop tagsSpec (tag :: rest) tags)
  = match Tag tag with
    | Some (key, value) => outcome (Loop tagsSpec rest (<[key := value]> tags))
    | None => Some None
    end.
Proof.
  unfold Loop, Tag, keyValueOf. cbn [addTagsLoop].
  destruct (util_DeleteEmptyAndTrim (fieldsColon tag)) as [|key fields]; [reflexivity|].
  destruct fields as [|value fields]; [reflexivity|].
  destruct fields as [|more fields]; [|reflexivity].
  destruct key as [|c key]; [reflexivity|]. destruct value as [|c' value]; reflexivity.
Qed.

Lemma addTagsLoop_outcome (tagsSpec : string) (tagKeyValues : list string)
    (tags : gmap string string) :
  outcome (Loop tagsSpec tagKeyValues tags)
  = Some (pairs ← mapM Tag tagKeyValues;
          Some (foldl (fun m kv => <[kv.1 := kv.2]> m) tags pairs)).
Proof.
  revert tags. induction tagKeyValues as [|tag rest IH]; intros tags; [reflexivity|].
  rewrite addTagsLoop_step. cbn [mapM].
  destruct (Tag tag) as [[key value]|]; [|reflexivity].
  rewrite IH. cbn. destruct (mapM Tag rest); reflexivity.
Qed.

(** X14: [AddTags] is all or nothing: it returns nil when the parameter is
    missing or when one tag of the list does not split into exactly a key
    and a value, both not empty; otherwise it returns the function for the
    map of all the tags, in which a key given more than once has the value
    given last.  A list without tags is no error: it gives the empty map. *)
Theorem AddTags_all_or_nothing (parameters : gmap string string) :
  match parameters !! Tags with
  | None => outcome (Add parameters) = Some None
  | Some tagsSpec =>
      match mapM Tag (util_DeleteEmptyAndTrim (fieldsComma tagsSpec)) with
      | None => outcome (Add parameters) = Some None
      | Some pairs =>
          outcome (Add parameters)
            = Some (Some (Stages.AddTagsFn (list_to_map (reverse pairs))))
          /\ (forall before key value after,
                pairs = before ++ (key, value) :: after -> key ∉ after.*1 ->
                (list_to_map (reverse pairs) : gmap string string) !! key = Some value)
          /\ (pairs = [] -> list_to_map (reverse pairs) = (∅ : gmap string string))
      end
  end.
Proof.
  unfold Add, AddTags. destruct (parameters !! Tags) as [tagsSpec|]; [|reflexivity].
  pose proof (addTagsLoop_outcome tagsSpec
                (util_DeleteEmptyAndTrim (fieldsComma tagsSpec)) ∅) as Hloop.
  unfold Loop in Hloop.
  destruct (addTagsLoop _ _ _ _ _) as [evs [result|]]; [|discriminate].
  cbn in Hloop. injection Hloop as ->.
  destruct (mapM Tag _) as [pairs|]; cbn; [|reflexivity].
  rewrite foldl_insert, (right_id_L ∅ (∪)). split; [reflexivity|]. split.
  - intros before key value after -> Hnot.
    rewrite reverse_app, reverse_cons, list_to_map_app.
    apply lookup_union_Some_raw. left.
    rewrite list_to_map_app. apply lookup_union_Some_raw. right. split.
    + apply not_elem_of_list_to_map_1. rewrite fmap_reverse, elem_of_reverse. exact Hnot.
    + cbn. apply lookup_insert_eq.
  - intros ->. reflexivity.
Qed.

End Tags.

Section Filters.

Variable fieldsComma : string -> list string.
Variable util_DeleteEmptyAndTrim : list string -> list string.
Variable strings_TrimSpace : string -> string.
Variable Addressable : Type.

Let ByDeviceName := FilterByDeviceName fieldsComma util_DeleteEmptyAndTrim Addressable.
Let ByValueDescriptor := FilterByValueDescriptor fieldsComma util_DeleteEmptyAndTrim Addressable.
Let Push := PushToCore strings_TrimSpace Addressable.

(** X15: a filter builder returns nil exactly when its list parameter is
    missing or filterout is present and no boolean; otherwise the filter it
    sets up has the cleaned list as values and filters out only when
    filterout says so, which by default it does not.  The two builders set
    up the same filter for the same list. *)
Theorem Filter_builders (parameters : gmap string string) :
  let filterOf (names : string) (filterOut : bool) : Stages.Filter :=
    {| Stages.FilterValues := util_DeleteEmptyAndTrim (fieldsComma names);
       Stages.FilterOut := filterOut |} in
  (outcome (ByDeviceName parameters) = Some None <->
   parameters !! DeviceNames = None \/ refused Strconv.ParseBool parameters FilterOut)
  /\ (outcome (ByValueDescriptor parameters) = Some None <->
      parameters !! ValueDescriptors = None \/ refused Strconv.ParseBool parameters FilterOut)
  /\ (forall names filterOut,
        parameters !! DeviceNames = Some names ->
        optional Strconv.ParseBool false (parameters !! FilterOut) = inl filterOut ->
        outcome (ByDeviceName parameters)
          = Some (Some (Stages.FilterByDeviceNameFn (filterOf names filterOut))))
  /\ (forall names filterOut,
        parameters !! ValueDescriptors = Some names ->
        optional Strconv.ParseBool false (parameters !! FilterOut) = inl filterOut ->
        outcome (ByValueDescriptor parameters)
          = Some (Some (Stages.FilterByValueDescriptorFn (filterOf names filterOut))))
  /\ (parameters !! FilterOut = None ->
      optional Strconv.ParseBool false (parameters !! FilterOut) = inl false).
Proof.
  cbv zeta. rewrite <- !(optional_refused Strconv.ParseBool false parameters FilterOut).
  unfold ByDeviceName, ByValueDescriptor, FilterByDeviceName, FilterByValueDescriptor.
  repeat split.
  - destruct (parameters !! DeviceNames); [|auto].
    destruct (optional _ _ _) as [b|[v e]]; [discriminate|eauto].
  - destruct (parameters !! DeviceNames) as [names|]; [|reflexivity].
    intros [H|[bad H]]; [discriminate|]. rewrite H. destruct bad. reflexivity.
  - destruct (parameters !! ValueDescriptors); [|auto].
    destruct (optional _ _ _) as [b|[v e]]; [discriminate|eauto].
  - destruct (parameters !! ValueDescriptors) as [names|]; [|reflexivity].
    intros [H|[bad H]]; [discriminate|]. rewrite H. destruct bad. reflexivity.
  - intros names filterOut -> ->. reflexivity.
  - intros names filterOut -> ->. reflexivity.
  - intros ->. reflexivity.
Qed.

(** X16: [PushToCore] needs devicename and readingname and trims both.  For
    a missing devicename its error line names the parameter; for a missing
    readingname the line ends after [Could not find ], because it is built
    from the value that was not found. *)
Theorem PushToCore_required_names (parameters : gmap string string) :
  (parameters !! DeviceName = None ->
   Push parameters = ([EvLog Error "Could not find devicename" []], Some None))
  /\ (forall deviceName,
        parameters !! DeviceName = Some deviceName -> parameters !! ReadingName = None ->
        Push parameters = ([EvLog Error "Could not find " []], Some None))
  /\ (forall deviceName readingName,
        parameters !! DeviceName = Some deviceName ->
        parameters !! ReadingName = Some readingName ->
        outcome (Push parameters)
          = Some (Some (Stages.PushToCoreDataFn
                          {| Stages.DeviceName := strings_TrimSpace deviceName;
                             Stages.ReadingName := strings_TrimSpace readingName |}))).
Proof.
  unfold Push, PushToCore. repeat split.
  - intros ->. reflexivity.
  - intros deviceName -> ->. reflexivity.
  - intros deviceName readingName -> ->. reflexivity.
Qed.

End Filters.

Section Complaints.

Variable strings_TrimSpace : string -> string.
Variable fieldsComma : string -> list string.
Variable fieldsColon : string -> list string.
Variable util_DeleteEmptyAndTrim : list string -> list string.
Variable NewBatchByTimeAndCount : string -> Z -> option BatchConfig * error.
Variable Addressable : Type.
Variable printAddressable : Addressable -> string.
Variable printTags : gmap string string -> string.

Ltac branches :=
  repeat match goal with
         | |- context [match ?x with _ => _ end] =>
             lazymatch x with
             | context [match _ with _ => _ end] => fail
             | _ => destruct x eqn:?
             end
         end.

Lemma addTagsLoop_complains (tagsSpec : string) (tagKeyValues : list string)
    (tags : gmap string string) :
  complainsIffNil (addTagsLoop fieldsColon util_DeleteEmptyAndTrim tagsSpec tagKeyValues tags)
  /\ outcome (addTagsLoop fieldsColon util_DeleteEmptyAndTrim tagsSpec tagKeyValues tags)
     <> None.
Proof.
  revert tags. induction tagKeyValues as [|tag rest IH]; intros tags; [split; done|].
  cbn [addTagsLoop].
  destruct (util_DeleteEmptyAndTrim (fieldsColon tag)) as [|key [|value [|more fields]]];
    try (split; done).
  destruct (String.length key =? 0)%nat; [split; done|].
  destruct (String.length value =? 0)%nat; [split; done|]. apply IH.
Qed.

(** X19: apart from the batch builders, a builder that reads parameters
    logs an error line exactly when it returns nil, and then exactly one:
    it never gives up silently and never complains and carries on.
    [BatchByTimeAndCount] is different: for a threshold that is no number
    and a constructor that refuses the stage it logs two error lines and
    still returns a function. *)
Theorem builders_complain_iff_nil (parameters : gmap string string) (addr : Addressable) :
  complainsIffNil (FilterByDeviceName fieldsComma util_DeleteEmptyAndTrim Addressable parameters)
  /\ complainsIffNil
       (FilterByValueDescriptor fieldsComma util_DeleteEmptyAndTrim Addressable parameters)
  /\ complainsIffNil (PushToCore strings_TrimSpace Addressable parameters)
  /\ complainsIffNil (EncryptWithAES Addressable parameters)
  /\ complainsIffNil (HTTPPost strings_TrimSpace parameters)
  /\ complainsIffNil (HTTPPut strings_TrimSpace parameters)
  /\ complainsIffNil (MQTTSend Addressable printAddressable parameters addr)
  /\ complainsIffNil (JSONLogic Addressable parameters)
  /\ complainsIffNil (MQTTSecretSend Addressable parameters)
  /\ complainsIffNil
       (AddTags fieldsComma fieldsColon util_DeleteEmptyAndTrim Addressable printTags parameters)
  /\ (forall timeInterval batchThreshold err err',
        parameters !! TimeInterval = Some timeInterval ->
        parameters !! BatchThreshold = Some batchThreshold ->
        snd (StrconvFull.Atoi batchThreshold) = Some err ->
        snd (NewBatchByTimeAndCount timeInterval (fst (StrconvFull.Atoi batchThreshold)))
          = Some err' ->
        errorLines (BatchByTimeAndCount NewBatchByTimeAndCount parameters) = 2
        /\ returnsNil (BatchByTimeAndCount NewBatchByTimeAndCount parameters) = false).
Proof.
  repeat apply conj.
  - unfold FilterByDeviceName. branches; reflexivity.
  - unfold FilterByValueDescriptor. branches; reflexivity.
  - unfold PushToCore. branches; reflexivity.
  - unfold EncryptWithAES. branches; reflexivity.
  - unfold HTTPPost. branches; reflexivity.
  - unfold HTTPPut. branches; reflexivity.
  - unfold MQTTSend. branches; reflexivity.
  - unfold JSONLogic. branches; reflexivity.
  - unfold MQTTSecretSend. branches; reflexivity.
  - unfold AddTags. destruct (parameters !! Tags) as [tagsSpec|]; [|reflexivity].
    destruct (addTagsLoop_complains tagsSpec (util_DeleteEmptyAndTrim (fieldsComma tagsSpec)) ∅)
      as [Hloop Hsome].
    destruct (addTagsLoop _ _ _ _ _) as [evs [[tags|]|]]; [| |done].
    + unfold complainsIffNil, errorLines, returnsNil in *. cbn in *.
      rewrite List.filter_app, length_app, Hloop. reflexivity.
    + unfold complainsIffNil, errorLines, returnsNil in *. cbn in *.
      rewrite app_nil_r. exact Hloop.
  - intros timeInterval batchThreshold err err' Ht Hb He He'.
    unfold BatchByTimeAndCount. rewrite Ht, Hb.
    destruct (StrconvFull.Atoi batchThreshold) as [v e]. cbn in He, He'. subst e.
    destruct (NewBatchByTimeAndCount timeInterval v) as [transform e']. cbn in He'. subst e'.
    split; reflexivity.
Qed.

End Complaints.

(** The builders on concrete parameters. *)
Lemma HTTP_builders_with_secret_header_witness :
  outcome (HTTPPost Strconv.TrimSpace Examples.withSecrets)
  = Some (Some (HTTPPostFn {| URL := "http://127.0.0.1:8080/somepath/foo";
                              Transforms.MimeType := "application/json";
                              Transforms.PersistOnError := false;
                              SecretHeaderName := "Secret-Header-Name";
                              Transforms.SecretHeaderName2 := "";
                              Transforms.SecretPath := "/path" |})).
Proof.
  refine (proj1 (HTTP_builders_with_secret_header Strconv.TrimSpace Examples.withSecrets
                   "http://127.0.0.1:8080/somepath/foo" "application/json" false
                   eq_refl eq_refl eq_refl _ _)); discriminate.
Defined.

Lemma MQTTSend_wraps_qos_witness :
  exists qos pair mqttConfig persistOnError,
    Stages.MQTTSendFn "broker" (Some {| Stages.CertFile := "client.crt";
                                        Stages.KeyFile := "client.key" |})
                      {| Stages.MqttConfig.Qos := 2; Stages.MqttConfig.Retain := false;
                         Stages.MqttConfig.AutoReconnect := false;
                         Stages.MqttConfig.SkipCertVerify := false |} false
    = Stages.MQTTSendFn "broker" pair mqttConfig persistOnError
    /\ optional Strconv.Atoi 0%Z (Examples.qos258 !! Qos) = inl qos
    /\ Stages.MqttConfig.Qos mqttConfig = (qos mod 256)%Z
    /\ (0 <= Stages.MqttConfig.Qos mqttConfig < 256)%Z
    /\ (pair = None <-> index Examples.qos258 Cert = "" \/ index Examples.qos258 Key = "")
    /\ (forall keyCert, pair = Some keyCert ->
          Stages.CertFile keyCert = index Examples.qos258 Cert
          /\ Stages.KeyFile keyCert = index Examples.qos258 Key).
Proof.
  exact (MQTTSend_wraps_qos string (fun addr => addr) Examples.qos258 "broker" _ eq_refl).
Defined.

Lemma empty_skipverify_splits_the_MQTT_builders_witness :
  outcome (MQTTSecretSend string Examples.emptySkipVerify) = Some None
  /\ outcome (MQTTSecretSend string (delete SkipVerify Examples.emptySkipVerify)) <> Some None.
Proof.
  split; [|discriminate].
  exact (proj2 (empty_skipverify_splits_the_MQTT_builders string (fun addr => addr)
                  Examples.emptySkipVerify "broker" eq_refl)).
Defined.

Lemma BatchByTimeAndCount_carries_on_witness :
  outcome (BatchByTimeAndCount Examples.NewBatchByTimeAndCount Examples.noNumber)
  = Some (Some (BatchFn None)).
Proof.
  exact (proj1 (BatchByTimeAndCount_carries_on Examples.NewBatchByTimeAndCount
                  Examples.noNumber "10s" "ten" eq_refl eq_refl)).
Defined.

Lemma builders_complain_iff_nil_witness :
  errorLines (BatchByTimeAndCount Examples.NewBatchByTimeAndCount Examples.noNumber) = 2
  /\ returnsNil (BatchByTimeAndCount Examples.NewBatchByTimeAndCount Examples.noNumber) = false.
Proof.
  pose proof (builders_complain_iff_nil Strconv.TrimSpace Examples.fieldsComma
                Examples.fieldsColon Examples.DeleteEmptyAndTrim
                Examples.NewBatchByTimeAndCount string (fun addr => addr) (fun _ => "")
                Examples.noNumber "broker") as (_ & _ & _ & _ & _ & _ & _ & _ & _ & _ & H).
  exact (H "10s" "ten" _ _ eq_refl eq_refl eq_refl eq_refl).
Defined.

Example AddTags_last_value_wins :
  outcome (AddTags Examples.fieldsComma Examples.fieldsColon Examples.DeleteEmptyAndTrim
                   unit (fun _ => "") Examples.someTags)
  = Some (Some (Stages.AddTagsFn {[ "site" := "roof"; "unit" := "7" ]})).
Proof. vm_compute. reflexivity. Qed.

End BuildersFacts.

(** ** More about the background publisher *)
Module PublisherFacts.

Import BackgroundPublisher BackgroundPublisherFacts.

Lemma run_app (schedule schedule' : list Action) (s : System) :
  run (schedule ++ schedule') s =
    match run schedule s with Some s' => run schedule' s' | None => None end.
Proof.
  revert s. induction schedule as [|a schedule IH]; intros s; cbn [run app]; [reflexivity|].
  destruct (exec a s); [apply IH|reflexivity].
Qed.

(** In every state that a run from an empty channel reaches, what has been
    observed and what is buffered can be carried on, by a merge of what is
    still to be published, to a merge of everything. *)
Lemma run_prefix (channel : Channel) (calls : list (list PublishCall))
    (schedule : list Action) (s : System) :
  buffer channel = [] ->
  run schedule (start channel calls) = Some s ->
  exists rest,
    Interleaving (map (map outputEnvelope) (producers s)) rest
    /\ Interleaving (map (map outputEnvelope) calls)
                    (observed s ++ buffer (output s) ++ rest).
Proof.
  intros Hempty Hrun.
  destruct (completion_reachable s) as (schedule' & s' & Hrun' & Hdone).
  destruct (run_interleaving _ _ _ Hrun' Hdone) as (rest & Hobs & Hrest).
  assert (Hall : run (schedule ++ schedule') (start channel calls) = Some s').
  { rewrite run_app, Hrun. exact Hrun'. }
  destruct (run_interleaving _ _ _ Hall Hdone) as (all & Hobs' & Hmerge).
  cbn [start observed output producers] in Hobs', Hmerge. rewrite Hempty in Hobs'.
  cbn [app] in Hobs'. exists rest. split; [exact Hrest|]. congruence.
Qed.

Lemma newBackgroundPublisher_Some (capacity : Z) (channel : Channel) :
  newBackgroundPublisher capacity = Some channel ->
  (0 <= capacity)%Z /\ channel = {| capacity := Z.to_nat capacity; buffer := [] |}.
Proof.
  unfold newBackgroundPublisher. destruct (Z.ltb_spec capacity 0); [discriminate|].
  intros [= <-]. auto.
Qed.

(** X17: at every moment of every run, not only at its end, nothing is
    lost, duplicated or reordered: the envelopes observed so far, followed
    by those in the buffer, are the beginning of a merge of all the
    producers' sequences that keeps each producer's order, and together
    with the envelopes of the calls still pending they are exactly the
    envelopes of all the calls. *)
Theorem Publish_keeps_order_at_every_moment (capacity : Z) (channel : Channel)
    (calls : list (list PublishCall)) (schedule : list Action) (s : System) :
  newBackgroundPublisher capacity = Some channel ->
  run schedule (start channel calls) = Some s ->
  (exists rest,
      Interleaving (map (map outputEnvelope) (producers s)) rest
      /\ Interleaving (map (map outputEnvelope) calls)
                      (observed s ++ buffer (output s) ++ rest))
  /\ observed s ++ buffer (output s) ++ concat (map (map outputEnvelope) (producers s))
     ≡ₚ concat (map (map outputEnvelope) calls).
Proof.
  intros Hnew Hrun. apply newBackgroundPublisher_Some in Hnew as [_ ->].
  destruct (run_prefix {| capacity := Z.to_nat capacity; buffer := [] |} calls schedule s
              eq_refl Hrun) as (rest & Hrest & Hmerge).
  split; [eauto|].
  rewrite <- (Interleaving_Permutation _ _ Hmerge), <- (Interleaving_Permutation _ _ Hrest).
  reflexivity.
Qed.

(** X18: the producers are never more than the capacity ahead of the
    consumer: the calls of [Publish] that have returned are those observed
    plus those buffered, so at most the observed plus the capacity; with a
    capacity of zero a call returns only when the consumer has taken its
    envelope. *)
Theorem Publish_never_runs_ahead (capacity : Z) (channel : Channel)
    (calls : list (list PublishCall)) (schedule : list Action) (s : System) :
  newBackgroundPublisher capacity = Some channel ->
  run schedule (start channel calls) = Some s ->
  let returned := length (concat calls) - pending s in
  length (observed s) + length (buffer (output s)) + pending s = length (concat calls)
  /\ returned = length (observed s) + length (buffer (output s))
  /\ (Z.of_nat returned <= Z.of_nat (length (observed s)) + capacity)%Z
  /\ (capacity = 0%Z -> buffer (output s) = [] /\ returned = length (observed s)).
Proof.
  intros Hnew Hrun. apply newBackgroundPublisher_Some in Hnew as [Hpos ->]. cbv zeta.
  destruct (run_prefix {| capacity := Z.to_nat capacity; buffer := [] |} calls schedule s
              eq_refl Hrun) as (rest & Hrest & Hmerge).
  destruct (run_capacity _ _ _ Hrun) as [Hcap Hlen]; [cbn; lia|].
  cbn [start output BackgroundPublisher.capacity] in Hcap. rewrite Hcap in Hlen.
  apply Interleaving_Permutation, Permutation_length in Hrest, Hmerge.
  rewrite !length_app in Hmerge. rewrite !length_concat_fmap in *.
  unfold pending.
  assert (Hcount : length (observed s) + length (buffer (output s))
                   + length (concat (producers s)) = length (concat calls)) by lia.
  split; [exact Hcount|]. split; [lia|]. split; [lia|].
  intros ->. assert (length (buffer (output s)) = 0) as Hnil by (cbn in Hlen; lia).
  split; [destruct (buffer (output s)); [reflexivity|discriminate]|lia].
Qed.

Lemma Publish_keeps_order_at_every_moment_witness :
  exists rest,
    Interleaving (map (map outputEnvelope) (producers Examples.midway)) rest
    /\ Interleaving (map (map outputEnvelope) Fixtures.calls)
                    (observed Examples.midway ++ buffer (output Examples.midway) ++ rest).
Proof.
  exact (proj1 (Publish_keeps_order_at_every_moment 1 Fixtures.channel Fixtures.calls
                  Examples.halfSchedule Examples.midway eq_refl eq_refl)).
Defined.

Lemma Publish_never_runs_ahead_witness :
  length (observed Examples.midway) + length (buffer (output Examples.midway))
  + pending Examples.midway = 3.
Proof.
  exact (proj1 (Publish_never_runs_ahead 1 Fixtures.channel Fixtures.calls
                  Examples.halfSchedule Examples.midway eq_refl eq_refl)).
Defined.

End PublisherFacts.
